(** * FSFFB-XPP: the X-Plane telemetry / control bridge

    A shallow embedding of [src/xplane-plugin/FSFFB-XPP.cpp] and the
    properties of its telemetry snapshot, wire codec and override state.

    Conventions of the embedding.
    - [float] values are IEEE-754 binary32 numbers, [double] values binary64
      numbers, both carried by [spec_float] and computed with the operations
      of [SpecFloat] at the matching precision (round to nearest, ties to
      even).
    - [std::string] is [string]; [std::map] is a key-ordered association
      list (module [StdMap]); [std::vector] is [list].
    - The simulator is an environment record [Sim] that answers the
      [XPLMGet*] reads; [XPLMSet*] calls, [sendto] calls and [DebugLog]
      messages are appended to traces kept in the plugin state.
    - A call that leaves by a C++ exception or by undefined behaviour returns
      [Throws] or [Undefined] instead of [Ok]. *)

From Stdlib Require Import ZArith List String Ascii Bool Lia Arith.
From Stdlib Require Import Numbers.DecimalString.
From Stdlib Require Import Floats.SpecFloat.
From Stdlib Require Sorted OrderedTypeEx.
From Equations Require Import Equations.
Import ListNotations.

#[local] Open Scope string_scope.
#[local] Open Scope Z_scope.

(** ** Decimal digits *)

Module Digits.

Definition is_digit (c : ascii) : bool :=
  let n := N_of_ascii c in (48 <=? n)%N && (n <=? 57)%N.

Definition digit_val (c : ascii) : Z := Z.of_N (N_of_ascii c) - 48.

(** Value of a hexadecimal digit, if [c] is one. *)
Definition hex_val (c : ascii) : option Z :=
  let n := Z.of_N (N_of_ascii c) in
  if (48 <=? n) && (n <=? 57) then Some (n - 48)
  else if (65 <=? n) && (n <=? 70) then Some (n - 55)
  else if (97 <=? n) && (n <=? 102) then Some (n - 87)
  else None.

(** [isspace] in the "C" locale. *)
Definition is_space (c : ascii) : bool :=
  let n := N_of_ascii c in (n =? 32)%N || ((9 <=? n)%N && (n <=? 13)%N).

Definition to_lower (c : ascii) : ascii :=
  let n := N_of_ascii c in
  if (65 <=? n)%N && (n <=? 90)%N then ascii_of_N (n + 32) else c.

Fixpoint skip_space (s : string) : string :=
  match s with
  | String c r => if is_space c then skip_space r else s
  | EmptyString => s
  end.

(** Longest prefix of decimal digits, read as a number in base 10:
    accumulated value, number of digits read, and the unread rest. *)
Fixpoint read_digits (acc : Z) (n : Z) (s : string) : Z * Z * string :=
  match s with
  | String c r =>
      if is_digit c then read_digits (10 * acc + digit_val c) (n + 1) r
      else (acc, n, s)
  | EmptyString => (acc, n, s)
  end.

Fixpoint read_hex_digits (acc : Z) (n : Z) (s : string) : Z * Z * string :=
  match s with
  | String c r =>
      match hex_val c with
      | Some d => read_hex_digits (16 * acc + d) (n + 1) r
      | None => (acc, n, s)
      end
  | EmptyString => (acc, n, s)
  end.

(** Case-insensitive test that [p] (given in lower case) starts [s]. *)
Fixpoint prefix_nocase (p s : string) : bool :=
  match p, s with
  | EmptyString, _ => true
  | String a p', String b s' => Ascii.eqb a (to_lower b) && prefix_nocase p' s'
  | String _ _, EmptyString => false
  end.

(** [std::to_string(int)]. *)
Definition to_string (z : Z) : string := NilZero.string_of_int (Z.to_int z).

(** Decimal digits of a natural number, without sign. *)
Definition of_N (n : N) : string := NilZero.string_of_uint (N.to_uint n).

Fixpoint zeros (n : nat) : string :=
  match n with
  | O => ""
  | S k => String "0" (zeros k)
  end.

End Digits.

(** ** C++ exceptions and undefined behaviour *)

Inductive exception := invalid_argument | out_of_range.

Inductive undefined := uninitialized_read | out_of_bounds_write.

(** Result of running a piece of the plugin: normal return, an exception that
    leaves the function, or undefined behaviour. *)
Inductive outcome (A : Type) : Type :=
| Ok (a : A)
| Throws (e : exception)
| Undefined (u : undefined).
Arguments Ok {A} a.
Arguments Throws {A} e.
Arguments Undefined {A} u.

Definition bind {A B} (x : outcome A) (k : A -> outcome B) : outcome B :=
  match x with
  | Ok a => k a
  | Throws e => Throws e
  | Undefined u => Undefined u
  end.

Notation "x <- c1 ;; c2" := (bind c1 (fun x => c2))
  (at level 61, c1 at next level, right associativity).

(** ** Floating point *)

Module Float.

(** One IEEE-754 binary format. *)
Record format := { prec : Z; emax : Z }.

Definition binary32 := {| prec := 24; emax := 128 |}.
Definition binary64 := {| prec := 53; emax := 1024 |}.

Definition mul (f : format) := SFmul (prec f) (emax f).

(** Re-rounding to format [f]; exact when the value is representable, as in
    the implicit conversion of [float] to [double]. *)
Definition convert (f : format) (x : spec_float) : spec_float :=
  match x with
  | S754_finite s m e => binary_round (prec f) (emax f) s m e
  | _ => x
  end.

(** [x != 0.0f]: true for every value but the two zeros (a NaN compares
    unequal to everything). *)
Definition nonzero (x : spec_float) : bool :=
  match x with
  | S754_zero _ => false
  | _ => true
  end.

(** The number [(-1)^s * m * 10^e10] rounded to format [f]. *)
Definition of_decimal (f : format) (s : bool) (m : Z) (e10 : Z) : spec_float :=
  match m with
  | Zpos p =>
      match e10 with
      | Zneg k =>
          SFdiv (prec f) (emax f)
                (S754_finite s p 0) (S754_finite false (Pos.pow 10 k) 0)
      | _ => binary_round (prec f) (emax f) s (Z.to_pos (m * 10 ^ e10)) 0
      end
  | _ => S754_zero s
  end.

(** Is [x] a normal number of format [f]? *)
Definition normal (f : format) (x : spec_float) : bool :=
  match x with
  | S754_finite _ m _ => Zpos (digits2_pos m) =? prec f
  | _ => false
  end.

(** [round_half_even (n / d)] for [0 <= n], [0 < d]. *)
Definition div_nearest_even (n d : Z) : Z :=
  let q := n / d in
  let r := n mod d in
  match 2 * r ?= d with
  | Lt => q
  | Gt => q + 1
  | Eq => if Z.even q then q else q + 1
  end.

(** Digits of [|x| * 10^p] rounded to an integer, for finite [x]. *)
Definition scaled (p : nat) (m : positive) (e : Z) : Z :=
  let n := Zpos m * 10 ^ Z.of_nat p in
  match e with
  | Zneg k => div_nearest_even n (2 ^ Zpos k)
  | _ => n * 2 ^ e
  end.

(** Places the decimal point [p] digits from the right of the decimal
    representation of [n]. *)
Definition point (p : nat) (n : Z) : string :=
  let ds := Digits.of_N (Z.to_N n) in
  let ds := Digits.zeros (S p - String.length ds) ++ ds in
  let k := (String.length ds - p)%nat in
  match p with
  | O => ds
  | _ => substring 0 k ds ++ "." ++ substring k p ds
  end.

(** Output of [stream << std::fixed << std::setprecision(precision) << x]:
    the [%.<precision>f] conversion of the exact value of [x].  A negative
    precision is the same as no precision, which [printf] takes as 6.  The
    text of an infinity or of a NaN is the C runtime's own ([spec_float] has
    one NaN, without the sign and payload that runtimes print, as in [-nan]
    or [-nan(ind)]); the text given for them here stands for it, and the
    properties that speak of the characters of a formatted number are
    stated for finite values. *)
Definition fixed (precision : Z) (x : spec_float) : string :=
  let p := if precision <? 0 then 6%nat else Z.to_nat precision in
  match x with
  | S754_zero s => (if s then "-" else "") ++ point p 0
  | S754_finite s m e => (if s then "-" else "") ++ point p (scaled p m e)
  | S754_infinity s => (if s then "-" else "") ++ "inf"
  | S754_nan => "nan"
  end.

End Float.

Definition float := spec_float.
Definition double := spec_float.

(** [float * float] *)
Definition fmul : float -> float -> float := Float.mul Float.binary32.
(** [double * double] *)
Definition dmul : double -> double -> double := Float.mul Float.binary64.
(** [static_cast<float>(double)] *)
Definition float_of_double : double -> float := Float.convert Float.binary32.
(** implicit [float] to [double] *)
Definition double_of_float : float -> double := Float.convert Float.binary64.

(** Decimal literals of the source, as [float]. *)
Definition flit (s : bool) (m : Z) (e10 : Z) : float :=
  Float.of_decimal Float.binary32 s m e10.

Definition f0 : float := S754_zero false.
Definition f1 : float := flit false 1 0.

(** ** [std::string] operations used by the plugin *)

Module StdString.

(** [s.find(c)]: position of the first [c], [None] for [npos]. *)
Fixpoint find (c : ascii) (s : string) : option nat :=
  match s with
  | EmptyString => None
  | String a r =>
      if Ascii.eqb a c then Some O
      else match find c r with
           | Some n => Some (S n)
           | None => None
           end
  end.

(** [s.substr(pos)] for [pos <= s.size()]. *)
Definition substr_from (pos : nat) (s : string) : string :=
  substring pos (String.length s - pos) s.

(** [s.substr(0, n)]. *)
Definition substr_to (n : nat) (s : string) : string := substring 0 n s.

Fixpoint mem (c : ascii) (set : string) : bool :=
  match set with
  | EmptyString => false
  | String a r => Ascii.eqb a c || mem c r
  end.

(** [s.find_last_not_of(set)]: position of the last character of [s] that
    is not one of the characters of [set], [None] for [npos]. *)
Fixpoint find_last_not_of (set : string) (s : string) : option nat :=
  match s with
  | EmptyString => None
  | String a r =>
      match find_last_not_of set r with
      | Some n => Some (S n)
      | None => if mem a set then None else Some O
      end
  end.

(** The characters of a C string: up to the first NUL. *)
Fixpoint c_str (s : string) : string :=
  match s with
  | EmptyString => EmptyString
  | String a r => if Ascii.eqb a zero then EmptyString else String a (c_str r)
  end.

End StdString.

(** ** [std::stof] and [std::stoi] *)

Module Conv.
Import Digits.

Definition sign (s : string) : bool * string :=
  match s with
  | String "-" r => (true, r)
  | String "+" r => (false, r)
  | _ => (false, s)
  end.

(** Optional exponent part [marker [sign] digits]; 0 when there is none. *)
Definition exponent (marker : ascii) (s : string) : Z :=
  match s with
  | String c r =>
      if Ascii.eqb (to_lower c) marker then
        let (neg, r') := sign r in
        let '(v, n, _) := read_digits 0 0 r' in
        if n =? 0 then 0 else if neg then - v else v
      else 0
  | EmptyString => 0
  end.

(** Digits with an optional point: mantissa read as an integer, number of
    digits read in all, number of digits after the point, unread rest. *)
Definition mantissa (rd : Z -> Z -> string -> Z * Z * string) (s : string)
  : Z * Z * Z * string :=
  let '(ip, n1, r) := rd 0 0 s in
  match r with
  | String "." r' =>
      let '(m, n2, r2) := rd ip 0 r' in (m, n1 + n2, n2, r2)
  | _ => (ip, n1, 0, r)
  end.

Definition hex_prefixed (s : string) : option string :=
  match s with
  | String "0" (String x r) => if Ascii.eqb (to_lower x) "x" then Some r else None
  | _ => None
  end.

(** [strtof]: the converted value and whether [errno] is set to [ERANGE];
    [None] when no conversion could be performed.  A result outside the
    normal range of [float] (overflow, or a non-zero number that rounds to
    zero or to a subnormal) is reported as [ERANGE].  For overflow the C
    standard requires it; for a result in the subnormal range it leaves the
    report to the C library, and libraries differ there (some report only an
    inexact result, and judge the range before rounding): the properties
    below either take the result of the conversion as a hypothesis or
    convert texts of ordinary magnitude. *)
Definition strtof (str : string) : option (float * bool) :=
  let (neg, s) := sign (skip_space str) in
  let finish (m : Z) (x : float) :=
    Some (x, negb (m =? 0) && negb (Float.normal Float.binary32 x)) in
  let decimal :=
    let '(m, n, nfrac, r) := mantissa read_digits s in
    if n =? 0 then None
    else finish m (Float.of_decimal Float.binary32 neg m (exponent "e" r - nfrac)) in
  if prefix_nocase "inf" s then Some (S754_infinity neg, false)
  else if prefix_nocase "nan" s then Some (S754_nan, false)
  else match hex_prefixed s with
       | Some h =>
           let '(m, n, nfrac, r) := mantissa read_hex_digits h in
           if n =? 0 then decimal
           else finish m (binary_normalize 24 128 (if neg then - m else m)
                                           (exponent "p" r - 4 * nfrac) neg)
       | None => decimal
       end.

(** [std::stof(str)]: [invalid_argument] if no conversion could be
    performed, [out_of_range] if [strtof] reports [ERANGE]. *)
Definition stof (str : string) : outcome float :=
  match strtof str with
  | None => Throws invalid_argument
  | Some (_, true) => Throws out_of_range
  | Some (x, false) => Ok x
  end.

(** [std::stoi(str)], base 10, [int] of 32 bits. *)
Definition stoi (str : string) : outcome Z :=
  let (neg, s) := sign (skip_space str) in
  let '(v, n, _) := read_digits 0 0 s in
  let v := if neg then - v else v in
  if n =? 0 then Throws invalid_argument
  else if (v <? - 2147483648) || (2147483647 <? v) then Throws out_of_range
  else Ok v.

End Conv.

(** ** [std::map<std::string, V>]

    Entries are kept in ascending key order, the order in which a range-for
    over the map visits them. *)

Module StdMap.

Definition t (V : Type) := list (string * V).

Section Ops.
Context {V : Type}.

(** [m.find(k)], as an option. *)
Fixpoint find (k : string) (m : t V) : option V :=
  match m with
  | [] => None
  | (k', v) :: r => if String.eqb k k' then Some v else find k r
  end.

(** [m[k] = v]. *)
Fixpoint insert (k : string) (v : V) (m : t V) : t V :=
  match m with
  | [] => [(k, v)]
  | (k', v') :: r =>
      match String.compare k k' with
      | Lt => (k, v) :: m
      | Eq => (k, v) :: r
      | Gt => (k', v') :: insert k v r
      end
  end.

(** Reading [m[k]]: a missing key is first inserted with the
    value-initialised [dflt]. *)
Definition index (dflt : V) (k : string) (m : t V) : V * t V :=
  match find k m with
  | Some v => (v, m)
  | None => (dflt, insert k dflt m)
  end.

(** Construction from an initialiser list. *)
Definition of_list (l : list (string * V)) : t V :=
  fold_left (fun m kv => match find (fst kv) m with
                         | Some _ => m
                         | None => insert (fst kv) (snd kv) m
                         end) l [].

Definition mem (k : string) (m : t V) : bool :=
  match find k m with Some _ => true | None => false end.

End Ops.

End StdMap.

(** ** [std::istringstream] *)

Module IStream.

(** The unread characters and the two state bits the plugin can observe. *)
Record t := { rdbuf : string; eofbit : bool; failbit : bool }.

Definition make (s : string) : t :=
  {| rdbuf := s; eofbit := false; failbit := false |}.

Definition good (iss : t) : bool := negb (eofbit iss || failbit iss).

(** Characters before the first [delim], and what follows that [delim];
    [None] when the end is reached first. *)
Fixpoint scan (delim : ascii) (s : string) : string * option string :=
  match s with
  | EmptyString => (EmptyString, None)
  | String c r =>
      if Ascii.eqb c delim then (EmptyString, Some r)
      else let (tok, k) := scan delim r in (String c tok, k)
  end.

(** [std::getline(is, str, delim)].  When the stream is not good the sentry
    fails: [failbit] is set and [str] keeps its old value.  Otherwise [str]
    is erased and filled; reaching the end sets [eofbit], and [failbit] too
    if nothing at all was extracted. *)
Definition getline (iss : t) (str : string) (delim : ascii) : string * t :=
  if good iss then
    match scan delim (rdbuf iss) with
    | (tok, Some r) => (tok, {| rdbuf := r; eofbit := false; failbit := false |})
    | (tok, None) =>
        (tok, {| rdbuf := ""; eofbit := true;
                 failbit := match tok with EmptyString => true | _ => false end |})
    end
  else (str, {| rdbuf := rdbuf iss; eofbit := eofbit iss; failbit := true |}).

(** [is >> std::boolalpha >> b]: [None] when nothing is stored into [b]
    (the sentry fails: stream not good, or only white space left);
    otherwise the value stored, [false] when the input matches neither
    ["true"] nor ["false"]. *)
Definition extract_boolalpha (iss : t) : option bool :=
  if good iss then
    match Digits.skip_space (rdbuf iss) with
    | EmptyString => None
    | s => Some (prefix "true" s)
    end
  else None.

(** What bounds the number of [getline] calls that can still succeed. *)
Definition fuel (iss : t) : nat :=
  (String.length (rdbuf iss) + if good iss then 1 else 0)%nat.

End IStream.

(** ** The simulator's data-access layer *)

(** A dataref handle is identified with the path it was found under. *)
Definition XPLMDataRef := string.

(** What the simulator answers at one instant. *)
Record Sim := {
  (** does [XPLMFindDataRef(path)] return a handle (not [NULL]) *)
  resolves : string -> bool;
  XPLMGetDatai : XPLMDataRef -> Z;
  XPLMGetDataf : XPLMDataRef -> float;
  XPLMGetDatad : XPLMDataRef -> double;
  (** the elements of a float-array dataref *)
  datavf : XPLMDataRef -> list float;
  (** the bytes [XPLMGetDatab] copies through [gAircraftDescr], a C string
      with its terminating zero byte; [None] when it copies nothing and the
      buffer keeps its content *)
  aircraftDescr : option string;
  (** the model file name given by [XPLMGetNthAircraftModel(0, ...)] *)
  aircraftModel : string;
  XPLMGetElapsedTime : float
}.

Definition XPLMFindDataRef (sim : Sim) (path : string) : option XPLMDataRef :=
  if resolves sim path then Some path else None.

(** [XPLMGetDatavf(ref, nullptr, 0, 0)]: the number of elements. *)
Definition XPLMGetDatavf_size (sim : Sim) (ref : XPLMDataRef) : Z :=
  Z.of_nat (List.length (datavf sim ref)).

(** A [std::vector<float>] of [size] zeros after
    [XPLMGetDatavf(ref, data, 0, size)] has copied what the dataref has. *)
Definition XPLMGetDatavf (sim : Sim) (ref : XPLMDataRef) (size : nat) : list float :=
  firstn size (datavf sim ref ++ repeat f0 size).

(** A write to the simulator. *)
Inductive SimWrite :=
| XPLMSetDatai (ref : XPLMDataRef) (v : Z)
| XPLMSetDataf (ref : XPLMDataRef) (v : float).

Definition gPaused : XPLMDataRef := "sim/time/paused".
Definition gOnGround : XPLMDataRef := "sim/flightmodel/failures/onground_all".
Definition gRetractable : XPLMDataRef := "sim/aircraft/gear/acf_gear_retract".
Definition gFlaps : XPLMDataRef := "sim/cockpit2/controls/flap_system_deploy_ratio".
Definition gGear : XPLMDataRef := "sim/flightmodel2/gear/deploy_ratio".
Definition gGs_axil : XPLMDataRef := "sim/flightmodel/forces/g_axil".
Definition gGs_nrml : XPLMDataRef := "sim/flightmodel/forces/g_nrml".
Definition gGs_side : XPLMDataRef := "sim/flightmodel/forces/g_side".
Definition gAccLocal_x : XPLMDataRef := "sim/flightmodel/position/local_ax".
Definition gAccLocal_y : XPLMDataRef := "sim/flightmodel/position/local_ay".
Definition gAccLocal_z : XPLMDataRef := "sim/flightmodel/position/local_az".
Definition gVelAcf_x : XPLMDataRef := "sim/flightmodel/forces/vx_acf_axis".
Definition gVelAcf_y : XPLMDataRef := "sim/flightmodel/forces/vy_acf_axis".
Definition gVelAcf_z : XPLMDataRef := "sim/flightmodel/forces/vz_acf_axis".
Definition gTAS : XPLMDataRef := "sim/flightmodel/position/true_airspeed".
Definition gIAS : XPLMDataRef := "sim/flightmodel/position/indicated_airspeed".
Definition gAirDensity : XPLMDataRef := "sim/weather/rho".
Definition gDynPress : XPLMDataRef := "sim/flightmodel/misc/Qstatic".
Definition gPropThrust : XPLMDataRef := "sim/flightmodel/engine/POINT_thrust".
Definition gAoA : XPLMDataRef := "sim/flightmodel/position/alpha".
Definition gWarnAlpha : XPLMDataRef := "sim/aircraft/overflow/acf_stall_warn_alpha".
Definition gSlip : XPLMDataRef := "sim/flightmodel/position/beta".
Definition gWoW : XPLMDataRef := "sim/flightmodel2/gear/tire_vertical_deflection_mtr".
Definition gNumEngines : XPLMDataRef := "sim/aircraft/engine/acf_num_engines".
Definition gEngRPM : XPLMDataRef := "sim/flightmodel/engine/ENGN_tacrad".
Definition gEngPCT : XPLMDataRef := "sim/flightmodel/engine/ENGN_N1_".
Definition gAfterburner : XPLMDataRef := "sim/flightmodel2/engines/afterburner_ratio".
Definition gPropRPM : XPLMDataRef := "sim/flightmodel/engine/POINT_tacrad".
Definition gRudDefl_l : XPLMDataRef := "sim/flightmodel/controls/ldruddef".
Definition gRudDefl_r : XPLMDataRef := "sim/flightmodel/controls/rdruddef".
Definition gVne : XPLMDataRef := "sim/aircraft/view/acf_Vne".
Definition gVso : XPLMDataRef := "sim/aircraft/view/acf_Vso".
Definition gVfe : XPLMDataRef := "sim/aircraft/view/acf_Vfe".
Definition gVle : XPLMDataRef := "sim/aircraft/overflow/acf_Vle".
Definition gCollectiveOvd : XPLMDataRef := "sim/operation/override/override_prop_pitch".
Definition gRollOvd : XPLMDataRef := "sim/operation/override/override_joystick_roll".
Definition gPitchOvd : XPLMDataRef := "sim/operation/override/override_joystick_pitch".
Definition gYawOvd : XPLMDataRef := "sim/operation/override/override_joystick_heading".
Definition gCollectiveRatio : XPLMDataRef := "sim/cockpit2/engine/actuators/prop_ratio_all".
Definition gRollRatio : XPLMDataRef := "sim/joystick/yoke_roll_ratio".
Definition gPitchRatio : XPLMDataRef := "sim/joystick/yoke_pitch_ratio".
Definition gYawRatio : XPLMDataRef := "sim/joystick/yoke_heading_ratio".
Definition gElevTrim : XPLMDataRef := "sim/flightmodel2/controls/elevator_trim".
Definition gAilerTrim : XPLMDataRef := "sim/flightmodel2/controls/aileron_trim".
Definition gRudderTrim : XPLMDataRef := "sim/flightmodel2/controls/rudder_trim".
Definition gAPMode : XPLMDataRef := "sim/cockpit/autopilot/autopilot_mode".
Definition gAPServos : XPLMDataRef := "sim/cockpit2/autopilot/servos_on".
Definition gYawServo : XPLMDataRef := "sim/joystick/servo_heading_ratio".
Definition gPitchServo : XPLMDataRef := "sim/joystick/servo_pitch_ratio".
Definition gRollServo : XPLMDataRef := "sim/joystick/servo_roll_ratio".
Definition gCanopyPos : XPLMDataRef := "sim/flightmodel/controls/canopy_ratio".
Definition gSpeedbrakePos : XPLMDataRef := "sim/flightmodel2/controls/speedbrake_ratio".
Definition gGearXNode : XPLMDataRef := "sim/aircraft/parts/acf_gear_xnodef".
Definition gGearYNode : XPLMDataRef := "sim/aircraft/parts/acf_gear_ynodef".
Definition gGearZNode : XPLMDataRef := "sim/aircraft/parts/acf_gear_znodef".
Definition gStickForcePitch : XPLMDataRef := "sim/flightmodel/misc/act_frc_ptch_lb".
Definition gStickForceRoll : XPLMDataRef := "sim/flightmodel/misc/act_frc_roll_lb".
Definition gStickForceYaw : XPLMDataRef := "sim/flightmodel/misc/act_frc_hdgn_lb".

Definition kt_2_mps : float := flit false 51444 (-5).
Definition radps_2_rpm : float := flit false 95493 (-4).
Definition fps_2_g : float := flit false 31081 (-6).
Definition no_convert : float := f1.

(** ** Plugin state *)

Record DataRefSubscription := {
  dataRef : XPLMDataRef;
  key : string;
  type : string;
  precision : Z;
  conversionFactor : float
}.

(** The globals of the plugin, and the traces of what it did to the outside:
    [debugLog] the messages given to [DebugLog], [simWrites] the
    [XPLMSetData*] calls, [sent] the datagrams given to [sendto], each in
    order of occurrence. *)
Record State := {
  subscribedDataRefs : list DataRefSubscription;
  telemetryData : StdMap.t string;
  axisDataMap : StdMap.t float;
  overrideJoystick : bool;
  overridePedals : bool;
  overrideCollective : bool;
  gAircraftName : string;
  gPrevAircraftName : string;
  gActiveNumGear : Z;
  gActiveNumEngines : Z;
  simPaused : bool;
  debugLog : list string;
  simWrites : list SimWrite;
  sent : list string
}.

Definition initial_state : State := {|
  subscribedDataRefs := [];
  telemetryData := [];
  axisDataMap := StdMap.of_list [("jx", f0); ("jy", f0); ("px", f0); ("cy", f0)];
  overrideJoystick := false;
  overridePedals := false;
  overrideCollective := false;
  gAircraftName := "";
  gPrevAircraftName := "";
  gActiveNumGear := 3;
  gActiveNumEngines := 0;
  simPaused := false;
  debugLog := [];
  simWrites := [];
  sent := []
|}.

Section Updates.
Variable st : State.

Definition with_subscribedDataRefs (x : list DataRefSubscription) : State :=
  {| subscribedDataRefs := x; telemetryData := telemetryData st;
     axisDataMap := axisDataMap st; overrideJoystick := overrideJoystick st;
     overridePedals := overridePedals st; overrideCollective := overrideCollective st;
     gAircraftName := gAircraftName st; gPrevAircraftName := gPrevAircraftName st;
     gActiveNumGear := gActiveNumGear st; gActiveNumEngines := gActiveNumEngines st;
     simPaused := simPaused st; debugLog := debugLog st;
     simWrites := simWrites st; sent := sent st |}.

Definition with_telemetryData (x : StdMap.t string) : State :=
  {| subscribedDataRefs := subscribedDataRefs st; telemetryData := x;
     axisDataMap := axisDataMap st; overrideJoystick := overrideJoystick st;
     overridePedals := overridePedals st; overrideCollective := overrideCollective st;
     gAircraftName := gAircraftName st; gPrevAircraftName := gPrevAircraftName st;
     gActiveNumGear := gActiveNumGear st; gActiveNumEngines := gActiveNumEngines st;
     simPaused := simPaused st; debugLog := debugLog st;
     simWrites := simWrites st; sent := sent st |}.

Definition with_axisDataMap (x : StdMap.t float) : State :=
  {| subscribedDataRefs := subscribedDataRefs st; telemetryData := telemetryData st;
     axisDataMap := x; overrideJoystick := overrideJoystick st;
     overridePedals := overridePedals st; overrideCollective := overrideCollective st;
     gAircraftName := gAircraftName st; gPrevAircraftName := gPrevAircraftName st;
     gActiveNumGear := gActiveNumGear st; gActiveNumEngines := gActiveNumEngines st;
     simPaused := simPaused st; debugLog := debugLog st;
     simWrites := simWrites st; sent := sent st |}.

Definition with_overrides (j p c : bool) : State :=
  {| subscribedDataRefs := subscribedDataRefs st; telemetryData := telemetryData st;
     axisDataMap := axisDataMap st; overrideJoystick := j;
     overridePedals := p; overrideCollective := c;
     gAircraftName := gAircraftName st; gPrevAircraftName := gPrevAircraftName st;
     gActiveNumGear := gActiveNumGear st; gActiveNumEngines := gActiveNumEngines st;
     simPaused := simPaused st; debugLog := debugLog st;
     simWrites := simWrites st; sent := sent st |}.

Definition with_aircraft (name prev : string) (gear engines : Z) : State :=
  {| subscribedDataRefs := subscribedDataRefs st; telemetryData := telemetryData st;
     axisDataMap := axisDataMap st; overrideJoystick := overrideJoystick st;
     overridePedals := overridePedals st; overrideCollective := overrideCollective st;
     gAircraftName := name; gPrevAircraftName := prev;
     gActiveNumGear := gear; gActiveNumEngines := engines;
     simPaused := simPaused st; debugLog := debugLog st;
     simWrites := simWrites st; sent := sent st |}.

Definition with_simPaused (x : bool) : State :=
  {| subscribedDataRefs := subscribedDataRefs st; telemetryData := telemetryData st;
     axisDataMap := axisDataMap st; overrideJoystick := overrideJoystick st;
     overridePedals := overridePedals st; overrideCollective := overrideCollective st;
     gAircraftName := gAircraftName st; gPrevAircraftName := gPrevAircraftName st;
     gActiveNumGear := gActiveNumGear st; gActiveNumEngines := gActiveNumEngines st;
     simPaused := x; debugLog := debugLog st;
     simWrites := simWrites st; sent := sent st |}.

Definition with_traces (log : list string) (writes : list SimWrite)
           (out : list string) : State :=
  {| subscribedDataRefs := subscribedDataRefs st; telemetryData := telemetryData st;
     axisDataMap := axisDataMap st; overrideJoystick := overrideJoystick st;
     overridePedals := overridePedals st; overrideCollective := overrideCollective st;
     gAircraftName := gAircraftName st; gPrevAircraftName := gPrevAircraftName st;
     gActiveNumGear := gActiveNumGear st; gActiveNumEngines := gActiveNumEngines st;
     simPaused := simPaused st; debugLog := log;
     simWrites := writes; sent := out |}.

End Updates.

(** [DebugLog(message)], without the time stamp the file line starts with. *)
Definition DebugLog (message : string) (st : State) : State :=
  with_traces st (debugLog st ++ [message]) (simWrites st) (sent st).

(** An [XPLMSetDatai] or [XPLMSetDataf] call. *)
Definition write (w : SimWrite) (st : State) : State :=
  with_traces st (debugLog st) (simWrites st ++ [w]) (sent st).

Definition sendto (datagram : string) (st : State) : State :=
  with_traces st (debugLog st) (simWrites st) (sent st ++ [datagram]).

(** [telemetryData[k] = v]. *)
Definition telemetry (k v : string) (st : State) : State :=
  with_telemetryData st (StdMap.insert k v (telemetryData st)).

(** [std::to_string(bool)]: the [bool] is promoted to [int]. *)
Definition bool_to_string (b : bool) : string :=
  Digits.to_string (if b then 1 else 0).

(** [std::to_string(float)], the [%f] conversion. *)
Definition float_to_string (x : float) : string := Float.fixed 6 x.

(** ** Source registry and formatting *)

Definition RegisterDataRef (sim : Sim) (datarefPath key type : string)
           (precision : Z) (conversionFactor : float) (st : State) : State :=
  match XPLMFindDataRef sim datarefPath with
  | Some dataRef =>
      let sub := {| dataRef := dataRef; key := key; type := type;
                    precision := precision; conversionFactor := conversionFactor |} in
      let st := with_subscribedDataRefs st (subscribedDataRefs st ++ [sub]) in
      DebugLog ("Subscribed to DataRef: " ++ datarefPath ++ " as " ++ type
                ++ " with key " ++ key ++ ", precision " ++ Digits.to_string precision
                ++ ", conversion factor " ++ float_to_string conversionFactor) st
  | None => DebugLog ("Failed to subscribe to DataRef: " ++ datarefPath) st
  end.

Definition FloatToString (value : float) (precision : Z) (conversionFactor : float)
  : string :=
  let value := fmul value conversionFactor in
  Float.fixed precision value.

Definition FloatArrayToString (sim : Sim) (dataRef : XPLMDataRef)
           (conversionFactor : float) (fixed_size : Z) (precision : Z) : string :=
  let size := XPLMGetDatavf_size sim dataRef in
  let size := if (0 <? fixed_size) && (fixed_size <=? size) then fixed_size else size in
  let dataArray := XPLMGetDatavf sim dataRef (Z.to_nat size) in
  let formattedString :=
    String.concat "~"
      (map (fun x => Float.fixed precision (fmul x conversionFactor)) dataArray) in
  if 0 <? fixed_size then formattedString
  else
    let result := formattedString in
    match StdString.find_last_not_of "~0.000" result with
    | Some pos => StdString.substr_to (pos + 1) result
    | None => result
    end.

(** [std::count_if] over the one-element range at index [i]. *)
Definition count_nonzero_at (i : nat) (array : list float) : Z :=
  if Float.nonzero (nth i array f0) then 1 else 0.

Definition GetNumGear (sim : Sim) : Z :=
  let size := 10%nat in
  let arrayX := XPLMGetDatavf sim gGearXNode size in
  let arrayY := XPLMGetDatavf sim gGearYNode size in
  let arrayZ := XPLMGetDatavf sim gGearZNode size in
  fold_left
    (fun maxNonZero i =>
       let nonZeroCount :=
         count_nonzero_at i arrayX + count_nonzero_at i arrayY
         + count_nonzero_at i arrayZ in
       Z.max maxNonZero nonZeroCount)
    (seq 0 size) 0.

Definition GetACDetails (sim : Sim) (aircraftName : string) (st : State) : State :=
  let st := DebugLog ("Aircraft Changed to: >" ++ aircraftName
                      ++ "< - getting new aircraft details...") st in
  let engines := XPLMGetDatai sim gNumEngines in
  let gear := GetNumGear sim in
  let st := with_aircraft st (gAircraftName st) (gPrevAircraftName st) gear engines in
  let st := telemetry "RetractableGear" (Digits.to_string (XPLMGetDatai sim gRetractable)) st in
  let st := telemetry "NumberEngines" (Digits.to_string (gActiveNumEngines st)) st in
  let st := telemetry "NumberGear" (Digits.to_string (gActiveNumGear st)) st in
  let st := telemetry "WarnAlpha" (FloatToString (XPLMGetDataf sim gWarnAlpha) 3 f1) st in
  let st := telemetry "Vne" (FloatToString (fmul (XPLMGetDataf sim gVne) kt_2_mps) 3 f1) st in
  let st := telemetry "Vso" (FloatToString (fmul (XPLMGetDataf sim gVso) kt_2_mps) 3 f1) st in
  let st := telemetry "Vfe" (FloatToString (fmul (XPLMGetDataf sim gVfe) kt_2_mps) 3 f1) st in
  let st := telemetry "Vle" (FloatToString (fmul (XPLMGetDataf sim gVle) kt_2_mps) 3 f1) st in
  let st := telemetry "GearXNode"
              (FloatArrayToString sim gGearXNode no_convert (gActiveNumGear st) 3) st in
  let st := telemetry "GearYNode"
              (FloatArrayToString sim gGearYNode no_convert (gActiveNumGear st) 3) st in
  let st := telemetry "GearZNode"
              (FloatArrayToString sim gGearZNode no_convert (gActiveNumGear st) 3) st in
  st.

(** ** Snapshot builder *)

(** One turn of the loop over [subscribedDataRefs]. *)
Definition collect_subscription (sim : Sim) (st : State) (sub : DataRefSubscription)
  : State :=
  if (type sub =? "int")%string then
    let value := XPLMGetDatai sim (dataRef sub) in
    telemetry (key sub) (Digits.to_string value) st
  else if (type sub =? "float")%string then
    let value := fmul (XPLMGetDataf sim (dataRef sub)) (conversionFactor sub) in
    telemetry (key sub) (FloatToString value (precision sub) f1) st
  else if (type sub =? "double")%string then
    let value := dmul (XPLMGetDatad sim (dataRef sub))
                      (double_of_float (conversionFactor sub)) in
    telemetry (key sub) (FloatToString (float_of_double value) (precision sub) f1) st
  else DebugLog ("Unsupported dataref type: " ++ type sub) st.

(** The assignments of [CollectTelemetryData] after the registry loop. *)
Definition collect_builtin (sim : Sim) (st : State) : State :=
  let getf := XPLMGetDataf sim in
  let geti := XPLMGetDatai sim in
  let st := telemetry "src" "XPLANE" st in
  let st := telemetry "N" (gAircraftName st) st in
  let st := telemetry "STOP" (Digits.to_string (geti gPaused)) st in
  let st := with_simPaused st (geti gPaused =? 1) in
  let st := telemetry "SimPaused" (bool_to_string (simPaused st)) st in
  let st := telemetry "SimOnGround" (Digits.to_string (geti gOnGround)) st in
  let st := telemetry "T" (FloatToString (XPLMGetElapsedTime sim) 3 f1) st in
  let st := telemetry "G" (FloatToString (getf gGs_nrml) 3 f1) st in
  let st := telemetry "Gaxil" (FloatToString (getf gGs_axil) 3 f1) st in
  let st := telemetry "Gside" (FloatToString (getf gGs_side) 3 f1) st in
  let st := telemetry "TAS" (FloatToString (getf gTAS) 3 f1) st in
  let st := telemetry "IAS" (FloatToString (fmul (getf gIAS) kt_2_mps) 3 f1) st in
  let st := telemetry "AirDensity" (FloatToString (getf gAirDensity) 3 f1) st in
  let st := telemetry "DynPressure" (FloatToString (getf gDynPress) 3 f1) st in
  let st := telemetry "AoA" (FloatToString (getf gAoA) 3 f1) st in
  let st := telemetry "SideSlip" (FloatToString (getf gSlip) 3 f1) st in
  let st := telemetry "WeightOnWheels" (FloatArrayToString sim gWoW no_convert 3 3) st in
  let st := telemetry "EngRPM"
              (FloatArrayToString sim gEngRPM radps_2_rpm (gActiveNumEngines st) 2) st in
  let st := telemetry "EngPCT"
              (FloatArrayToString sim gEngPCT no_convert (gActiveNumEngines st) 3) st in
  let st := telemetry "PropRPM"
              (FloatArrayToString sim gPropRPM radps_2_rpm (gActiveNumEngines st) 2) st in
  let st := telemetry "PropThrust"
              (FloatArrayToString sim gPropThrust no_convert (gActiveNumEngines st) 2) st in
  let st := telemetry "Afterburner"
              (FloatArrayToString sim gAfterburner no_convert (gActiveNumEngines st) 2) st in
  let st := telemetry "RudderDefl" (FloatToString (getf gRudDefl_l) 3 f1) st in
  let st := telemetry "RudderDefl_l" (FloatToString (getf gRudDefl_l) 3 f1) st in
  let st := telemetry "RudderDefl_r" (FloatToString (getf gRudDefl_r) 3 f1) st in
  let st := telemetry "StickForcePitch" (FloatToString (getf gStickForcePitch) 3 f1) st in
  let st := telemetry "StickForceRoll" (FloatToString (getf gStickForceRoll) 3 f1) st in
  let st := telemetry "StickForceYaw" (FloatToString (getf gStickForceYaw) 3 f1) st in
  let st := telemetry "AccBody"
              (FloatToString (fmul (getf gAccLocal_x) fps_2_g) 3 f1 ++ "~"
               ++ FloatToString (fmul (getf gAccLocal_y) fps_2_g) 3 f1 ++ "~"
               ++ FloatToString (fmul (getf gAccLocal_z) fps_2_g) 3 f1) st in
  let st := telemetry "VelAcf"
              (FloatToString (getf gVelAcf_x) 3 f1 ++ "~"
               ++ FloatToString (getf gVelAcf_y) 3 f1 ++ "~"
               ++ FloatToString (SFopp (getf gVelAcf_z)) 3 f1) st in
  let st := telemetry "Flaps" (FloatToString (getf gFlaps) 3 f1) st in
  let st := telemetry "Gear" (FloatArrayToString sim gGear no_convert 3 3) st in
  let st := telemetry "APMode" (Digits.to_string (geti gAPMode)) st in
  let st := telemetry "APServos" (Digits.to_string (geti gAPServos)) st in
  let st := telemetry "APYawServo" (FloatToString (getf gYawServo) 3 f1) st in
  let st := telemetry "APPitchServo" (FloatToString (getf gPitchServo) 3 f1) st in
  let st := telemetry "APRollServo" (FloatToString (getf gRollServo) 3 f1) st in
  let st := telemetry "ElevTrimPct" (FloatToString (getf gElevTrim) 3 f1) st in
  let st := telemetry "AileronTrimPct" (FloatToString (getf gAilerTrim) 3 f1) st in
  let st := telemetry "RudderTrimPct" (FloatToString (getf gRudderTrim) 3 f1) st in
  let st := telemetry "CanopyPos" (FloatToString (getf gCanopyPos) 3 f1) st in
  let st := telemetry "SpeedbrakePos" (FloatToString (getf gSpeedbrakePos) 3 f1) st in
  let st := telemetry "cOvrd" (bool_to_string (overrideCollective st)) st in
  let st := telemetry "jOvrd" (bool_to_string (overrideJoystick st)) st in
  let st := telemetry "pOvrd" (bool_to_string (overridePedals st)) st in
  st.

(** The first steps of [CollectTelemetryData]: the aircraft name, and the
    per-aircraft fields when the name has changed.  The state keeps the name
    as the C string that [gAircraftName] holds, not the 250 bytes of the
    buffer: the name is right when the bytes copied hold a zero byte (then
    [strlen] stops inside them), and the properties that give the name
    assume it; bytes without one would be followed, in the buffer, by what
    an earlier copy left there. *)
Definition collect_aircraft (sim : Sim) (st : State) : State :=
  (* XPLMGetDatab(gAircraftDescr, gAircraftName, 0, 250) *)
  let name := match aircraftDescr sim with
              | Some bytes => StdString.c_str bytes
              | None => gAircraftName st
              end in
  let name := if (String.length name =? 0)%nat then aircraftModel sim else name in
  let st := with_aircraft st name (gPrevAircraftName st)
                          (gActiveNumGear st) (gActiveNumEngines st) in
  if negb (gAircraftName st =? gPrevAircraftName st)%string then
    let st := GetACDetails sim (gAircraftName st) st in
    with_aircraft st (gAircraftName st) (gAircraftName st)
                  (gActiveNumGear st) (gActiveNumEngines st)
  else st.

Definition CollectTelemetryData (sim : Sim) (st : State) : State :=
  let st := collect_aircraft sim st in
  let st := fold_left (collect_subscription sim) (subscribedDataRefs st) st in
  collect_builtin sim st.

(** ** Wire codec, outbound *)

Definition FormatAndSendTelemetryData (st : State) : State :=
  let dataString :=
    fold_left (fun dataString entry =>
                 dataString ++ (fst entry ++ "=" ++ snd entry ++ ";"))
              (telemetryData st) "" in
  sendto dataString st.

(** ** Wire codec, inbound, and command dispatch *)

(** Termination of the [getline] loops: a [getline] never adds to what is
    left to read, and one that succeeds leaves strictly less. *)
Ltac scan_shorter :=
  let s := fresh "s" in
  let IH := fresh "IH" in
  intros ? s; induction s as [|? s IH]; intros ? ?; simpl;
  [ discriminate
  | match goal with
    | |- context [Ascii.eqb ?c ?d] =>
        destruct (Ascii.eqb c d);
        [ intros [= _ <-]; lia
        | match goal with
          | |- context [IStream.scan d s] =>
              let t := fresh "t" in
              let k := fresh "k" in
              destruct (IStream.scan d s) as [t [k|]]; intros [= _ <-];
              specialize (IH t k eq_refl); lia
          end ]
    end ].

Ltac getline_fuel :=
  let L := fresh "L" in
  assert (L : forall delim s tok r,
             IStream.scan delim s = (tok, Some r) ->
             (String.length r < String.length s)%nat) by scan_shorter;
  let i := fresh "i" in
  let d := fresh "d" in
  let E := fresh "E" in
  intros i ? d;
  unfold IStream.getline, IStream.fuel, IStream.good;
  destruct (IStream.eofbit i), (IStream.failbit i); simpl;
  try discriminate; try lia;
  destruct (IStream.scan d (IStream.rdbuf i)) as [? [?|]] eqn:E; simpl;
  try (apply L in E); intros; lia.

Ltac getline_decreases :=
  let LT := fresh "LT" in
  let LE := fresh "LE" in
  assert (LT : forall iss str delim,
             IStream.failbit (snd (IStream.getline iss str delim)) = false ->
             (IStream.fuel (snd (IStream.getline iss str delim)) < IStream.fuel iss)%nat)
    by getline_fuel;
  assert (LE : forall iss str delim,
             (IStream.fuel (snd (IStream.getline iss str delim)) <= IStream.fuel iss)%nat)
    by getline_fuel;
  match goal with
  | Hg : IStream.getline ?i ?s ?d = (_, ?i'), Hok : IStream.failbit ?i' = false |- _ =>
      specialize (LT i s d); rewrite Hg in LT; simpl in LT; specialize (LT Hok);
      try match goal with
          | |- context [IStream.getline i' ?s' ?d'] => specialize (LE i' s' d')
          end;
      lia
  end.

Definition inspect {A : Type} (a : A) : {b : A | a = b} := exist _ a eq_refl.

(** The body of the [AXIS] loop for one [token]. *)
Definition axis_pair (token : string) (axisDataMap : StdMap.t float)
  : outcome (StdMap.t float) :=
  match StdString.find "=" token with
  | Some equalsPos =>
      let key := StdString.substr_to equalsPos token in
      value <- Conv.stof (StdString.substr_from (equalsPos + 1) token) ;;
      Ok (StdMap.insert key value axisDataMap)
  | None => Ok axisDataMap
  end.

(** [while (std::getline(iss, token, ',')) { ... }] of the [AXIS] branch. *)
Equations? axis_loop (iss : IStream.t) (token : string) (axisDataMap : StdMap.t float)
  : outcome (StdMap.t float) by wf (IStream.fuel iss) lt :=
  axis_loop iss token axisDataMap with inspect (IStream.getline iss token ",") := {
    | exist _ (token', iss') Hget with inspect (IStream.failbit iss') := {
      | exist _ true _ := Ok axisDataMap
      | exist _ false Hok with axis_pair token' axisDataMap := {
        | Ok m := axis_loop iss' token' m
        | Throws e := Throws e
        | Undefined u := Undefined u } } }.
Proof. all: getline_decreases. Qed.

(** [while (std::getline(iss, key, '=')) { std::getline(iss, value, ',');
    parameters[key] = value; }] of the [SUBSCRIBE] branch. *)
Equations? subscribe_loop (iss : IStream.t) (key value : string)
           (parameters : StdMap.t string)
  : StdMap.t string by wf (IStream.fuel iss) lt :=
  subscribe_loop iss key value parameters
    with inspect (IStream.getline iss key "=") := {
    | exist _ (key', iss') Hget with inspect (IStream.failbit iss') := {
      | exist _ true _ := parameters
      | exist _ false Hok :=
          subscribe_loop (snd (IStream.getline iss' value ","))
                         key' (fst (IStream.getline iss' value ","))
                         (StdMap.insert key' (fst (IStream.getline iss' value ","))
                                        parameters) } }.
Proof. all: getline_decreases. Qed.

(** [cond ? 1 : 0] *)
Definition int_of_bool (b : bool) : Z := if b then 1 else 0.

Definition ProcessReceivedData (sim : Sim) (dataType payload : string) (st : State)
  : outcome State :=
  if (dataType =? "AXIS")%string then
    m <- axis_loop (IStream.make payload) "" (axisDataMap st) ;;
    Ok (with_axisDataMap st m)
  else if (dataType =? "OVERRIDE")%string then
    let st := DebugLog "Inside the Override block" st in
    let (keyValuePair, iss) := IStream.getline (IStream.make payload) "" "=" in
    if IStream.failbit iss then Ok st
    else
      let keyword := keyValuePair in
      match IStream.extract_boolalpha iss with
      | None =>
          (* [overrideValue] is read without ever having been given a value *)
          Undefined uninitialized_read
      | Some overrideValue =>
          let st := DebugLog ("Received Keyword: " ++ keyword) st in
          let st := DebugLog ("Stream Content: " ++ payload) st in
          let st := DebugLog ("Parsed overrideValue: "
                              ++ bool_to_string overrideValue) st in
          if (keyword =? "joystick")%string then
            let st := write (XPLMSetDatai gRollOvd (int_of_bool overrideValue)) st in
            let st := write (XPLMSetDatai gPitchOvd (int_of_bool overrideValue)) st in
            Ok (with_overrides st overrideValue (overridePedals st)
                               (overrideCollective st))
          else if (keyword =? "pedals")%string then
            let st := write (XPLMSetDatai gYawOvd (int_of_bool overrideValue)) st in
            Ok (with_overrides st (overrideJoystick st) overrideValue
                               (overrideCollective st))
          else if (keyword =? "collective")%string then
            let st := write (XPLMSetDatai gCollectiveOvd (int_of_bool overrideValue)) st in
            Ok (with_overrides st (overrideJoystick st) (overridePedals st)
                               overrideValue)
          else Ok st
      end
  else if (dataType =? "SUBSCRIBE")%string then
    let parameters := subscribe_loop (IStream.make payload) "" "" [] in
    let (datarefStr, parameters) := StdMap.index "" "dataref" parameters in
    let (typeStr, parameters) := StdMap.index "" "type" parameters in
    let (tagStr, parameters) := StdMap.index "" "tag" parameters in
    precision <-
      match StdMap.find "precision" parameters with
      | Some _ => Conv.stoi (fst (StdMap.index "" "precision" parameters))
      | None => Ok 3
      end ;;
    conversionFactor <-
      match StdMap.find "conversion" parameters with
      | Some _ => Conv.stof (fst (StdMap.index "" "conversion" parameters))
      | None => Ok f1
      end ;;
    Ok (RegisterDataRef sim datarefStr tagStr typeStr precision conversionFactor st)
  else Ok (DebugLog ("Unknown Packet: " ++ payload) st).

(** Size of the receive buffer of [ReceiveData]. *)
Definition buffer_size : nat := 1024.

(** [ReceiveData] when [recvfrom] delivers [datagram].  A datagram longer
    than the buffer makes [recvfrom] fail with a negative result, an empty one
    gives 0: both skip the body.  One of exactly [buffer_size] bytes makes
    [buffer[recvlen] = 0] store one past the end of [buffer]. *)
Definition ReceiveData (sim : Sim) (datagram : string) (st : State) : outcome State :=
  let recvlen := String.length datagram in
  if (recvlen =? 0)%nat || (buffer_size <? recvlen)%nat then Ok st
  else if (recvlen =? buffer_size)%nat then Undefined out_of_bounds_write
  else
    let iss := IStream.make (StdString.c_str datagram) in
    let (dataType, iss) := IStream.getline iss "" ":" in
    let (payload, iss) := IStream.getline iss "" "010" in
    ProcessReceivedData sim dataType payload st.

(** ** Axis write-through and the frame tick *)

Definition SendAxisPosition (st : State) : State :=
  let st :=
    if overrideJoystick st then
      let (jx, m) := StdMap.index f0 "jx" (axisDataMap st) in
      let (jy, m) := StdMap.index f0 "jy" m in
      let st := with_axisDataMap st m in
      let st := write (XPLMSetDataf gRollRatio jx) st in
      write (XPLMSetDataf gPitchRatio jy) st
    else st in
  let st :=
    if overridePedals st then
      let (px, m) := StdMap.index f0 "px" (axisDataMap st) in
      let st := with_axisDataMap st m in
      write (XPLMSetDataf gYawRatio px) st
    else st in
  let st :=
    if overrideCollective st then
      let (cy, m) := StdMap.index f0 "cy" (axisDataMap st) in
      let st := with_axisDataMap st m in
      write (XPLMSetDataf gCollectiveRatio cy) st
    else st in
  st.

Definition MyFlightLoopCallback (sim : Sim) (st : State) : State :=
  let st := SendAxisPosition st in
  let st := CollectTelemetryData sim st in
  if negb (simPaused st) then FormatAndSendTelemetryData st else st.

(** ** Runs of the plugin

    The receive thread holds [axisDataMutex] for a whole
    [ProcessReceivedData], the frame loop for a whole [SendAxisPosition].  A
    run is taken as a sequence of whole datagram receptions and whole frame
    ticks; a datagram handled in the middle of [CollectTelemetryData], which
    reads the registry and the flags outside the mutex, is not modelled. *)

Inductive event :=
| Datagram (sim : Sim) (bytes : string)
| FrameTick (sim : Sim).

Definition step (st : State) (ev : event) : outcome State :=
  match ev with
  | Datagram sim bytes => ReceiveData sim bytes st
  | FrameTick sim => Ok (MyFlightLoopCallback sim st)
  end.

Fixpoint run (evs : list event) (st : State) : outcome State :=
  match evs with
  | [] => Ok st
  | ev :: evs => st' <- step st ev ;; run evs st'
  end.

(** ** Version test *)

Definition gXplaneVers : XPLMDataRef := "sim/version/xplane_internal_version".

Definition IsXPlane12OrNewer (sim : Sim) : bool :=
  (* Get the X-Plane version as an integer *)
  let XPVersion := XPLMGetDatai sim gXplaneVers in
  (* Convert the version to a string *)
  let versionString := Digits.to_string XPVersion in
  (* Extract the first two characters *)
  let firstTwoDigits := substring 0 2 versionString in
  (firstTwoDigits =? "12")%string.

(** ** Log time stamps *)

(** The fields of [SYSTEMTIME] that [GetTimestamp] reads. *)
Record SYSTEMTIME := {
  wMonth : Z;
  wDay : Z;
  wHour : Z;
  wMinute : Z;
  wSecond : Z
}.

(** [oss << std::setfill('0') << std::setw(w) << n] for an unsigned [n]. *)
Definition setw_setfill_0 (w : nat) (n : N) : string :=
  let digits := Digits.of_N n in
  Digits.zeros (w - String.length digits) ++ digits.

(** [GetTimestamp], given the system time and the file time made from it
    ([QuadPart], an unsigned count of 100 ns units). *)
Definition GetTimestamp (systemTime : SYSTEMTIME) (QuadPart : N) : string :=
  (* Convert 100-nanoseconds to milliseconds *)
  let milliseconds := (QuadPart mod 10000000 / 10000)%N in
  let oss := setw_setfill_0 3 milliseconds in
  Digits.to_string (wMonth systemTime) ++ ":" ++
  Digits.to_string (wDay systemTime) ++ ":" ++
  Digits.to_string (wHour systemTime) ++ ":" ++
  Digits.to_string (wMinute systemTime) ++ ":" ++
  Digits.to_string (wSecond systemTime) ++ "." ++
  oss ++ " - ".

(** * Vocabulary of the properties *)

(** ** Frames and sample simulators *)

(** The part of the state shared between the receive thread and the frame
    loop, and the outbound traces. *)
Definition same_control (a b : State) : Prop :=
  subscribedDataRefs a = subscribedDataRefs b /\
  axisDataMap a = axisDataMap b /\
  overrideJoystick a = overrideJoystick b /\
  overridePedals a = overridePedals b /\
  overrideCollective a = overrideCollective b /\
  simWrites a = simWrites b /\
  sent a = sent b.

(** A simulator at rest: nothing resolves, every dataref reads zero, no
    aircraft is named. *)
Definition quiet : Sim := {|
  resolves := fun _ => false;
  XPLMGetDatai := fun _ => 0;
  XPLMGetDataf := fun _ => f0;
  XPLMGetDatad := fun _ => f0;
  datavf := fun _ => [];
  aircraftDescr := Some (String Ascii.zero "");
  aircraftModel := "";
  XPLMGetElapsedTime := f0
|}.

(** A simulator at rest but for the pause flag, which is set. *)
Definition paused : Sim := {|
  resolves := fun _ => false;
  XPLMGetDatai := fun ref => if (ref =? gPaused)%string then 1 else 0;
  XPLMGetDataf := fun _ => f0;
  XPLMGetDatad := fun _ => f0;
  datavf := fun _ => [];
  aircraftDescr := Some (String Ascii.zero "");
  aircraftModel := "";
  XPLMGetElapsedTime := f0
|}.

(** ** Outbound encoding *)


(** ** Axis write-through *)

(** The dataref a write goes to. *)
Definition target (w : SimWrite) : XPLMDataRef :=
  match w with
  | XPLMSetDatai ref _ => ref
  | XPLMSetDataf ref _ => ref
  end.

(** The writes of a trace that go to [ref]. *)
Definition writes_to (ref : XPLMDataRef) (ws : list SimWrite) : list SimWrite :=
  filter (fun w => (target w =? ref)%string) ws.

(** The value [SendAxisPosition] reads for key [k]. *)
Definition axis_value (m : StdMap.t float) (k : string) : float :=
  fst (StdMap.index f0 k m).

(** The writes of [SendAxisPosition]. *)
Definition write_through (st : State) : list SimWrite :=
  let value := axis_value (axisDataMap st) in
  ((if overrideJoystick st
    then [XPLMSetDataf gRollRatio (value "jx"); XPLMSetDataf gPitchRatio (value "jy")]
    else [])
   ++ (if overridePedals st then [XPLMSetDataf gYawRatio (value "px")] else [])
   ++ (if overrideCollective st then [XPLMSetDataf gCollectiveRatio (value "cy")] else [])
  )%list.



(** [float v = axisDataMap[k]; XPLMSetDataf(ref, v);] under its guard. *)
Definition write_axis (guard : bool) (k : string) (ref : XPLMDataRef) (st : State)
  : State :=
  if guard then
    let (v, m) := StdMap.index f0 k (axisDataMap st) in
    write (XPLMSetDataf ref v) (with_axisDataMap st m)
  else st.

(** What [write_axis] does to the map, the flags and the write trace. *)
Record axis_step (guard : bool) (k : string) (ref : XPLMDataRef) (st st' : State)
  : Prop := {
  step_map : axisDataMap st'
             = if guard then snd (StdMap.index f0 k (axisDataMap st)) else axisDataMap st;
  step_joystick : overrideJoystick st' = overrideJoystick st;
  step_pedals : overridePedals st' = overridePedals st;
  step_collective : overrideCollective st' = overrideCollective st;
  step_writes : simWrites st'
                = (simWrites st
                   ++ if guard then [XPLMSetDataf ref (axis_value (axisDataMap st) k)]
                      else [])%list
}.

(** The values [0.5f] and [-0.2f]. *)
Definition half : float := flit false 5 (-1).
Definition minus_fifth : float := flit true 2 (-1).

(** ** Array formatting *)

(** A simulator whose float-array datarefs all hold [values]. *)
Definition with_array (values : list float) : Sim := {|
  resolves := fun _ => false;
  XPLMGetDatai := fun _ => 0;
  XPLMGetDataf := fun _ => f0;
  XPLMGetDatad := fun _ => f0;
  datavf := fun _ => values;
  aircraftDescr := Some (String Ascii.zero "");
  aircraftModel := "";
  XPLMGetElapsedTime := f0
|}.

Definition five : float := flit false 5 0.
Definition ten : float := flit false 10 0.

(** ** Gear count *)

(** A simulator at rest with the given gear coordinate tables. *)
Definition with_gear (xs ys zs : list float) : Sim := {|
  resolves := fun _ => false;
  XPLMGetDatai := fun _ => 0;
  XPLMGetDataf := fun _ => f0;
  XPLMGetDatad := fun _ => f0;
  datavf := fun ref => if (ref =? gGearXNode)%string then xs
                       else if (ref =? gGearYNode)%string then ys
                       else if (ref =? gGearZNode)%string then zs
                       else [];
  aircraftDescr := Some (String Ascii.zero "");
  aircraftModel := "";
  XPLMGetElapsedTime := f0
|}.

(** The gear count as the specification words it: the highest index of the
    table of size 10 at which any of the three coordinate arrays holds a
    non-zero value. *)
Definition highest_nonzero_index (sim : Sim) : option nat :=
  let nonzero_at i ref := Float.nonzero (nth i (XPLMGetDatavf sim ref 10) f0) in
  fold_left
    (fun best i =>
       if nonzero_at i gGearXNode || nonzero_at i gGearYNode || nonzero_at i gGearZNode
       then Some i else best)
    (seq 0 10) None.

(** Five gear legs, each with three non-zero coordinates. *)
Definition five_legs : list float := [f1; f1; f1; f1; f1].

(** ** Sample simulators with a resolving dataref *)

(** A simulator at rest in which exactly [path] resolves. *)
Definition resolving (path : string) : Sim := {|
  resolves := fun p => (p =? path)%string;
  XPLMGetDatai := fun _ => 0;
  XPLMGetDataf := fun _ => f0;
  XPLMGetDatad := fun _ => f0;
  datavf := fun _ => [];
  aircraftDescr := Some (String Ascii.zero "");
  aircraftModel := "";
  XPLMGetElapsedTime := f0
|}.

(** ** The snapshot *)

(** The types the registry loop of [CollectTelemetryData] knows. *)
Definition supported (type : string) : bool :=
  ((type =? "int") || (type =? "float") || (type =? "double"))%string.

(** The string the registry loop stores for a subscription of a supported
    type. *)
Definition subscription_value (sim : Sim) (sub : DataRefSubscription) : string :=
  if (type sub =? "int")%string then Digits.to_string (XPLMGetDatai sim (dataRef sub))
  else if (type sub =? "float")%string then
    FloatToString (fmul (XPLMGetDataf sim (dataRef sub)) (conversionFactor sub))
                  (precision sub) f1
  else
    FloatToString
      (float_of_double (dmul (XPLMGetDatad sim (dataRef sub))
                             (double_of_float (conversionFactor sub))))
      (precision sub) f1.

(** The keys [CollectTelemetryData] assigns after the registry loop, in the
    order of the assignments. *)
Definition builtin_keys : list string :=
  ["src"; "N"; "STOP"; "SimPaused"; "SimOnGround"; "T"; "G"; "Gaxil"; "Gside";
   "TAS"; "IAS"; "AirDensity"; "DynPressure"; "AoA"; "SideSlip"; "WeightOnWheels";
   "EngRPM"; "EngPCT"; "PropRPM"; "PropThrust"; "Afterburner";
   "RudderDefl"; "RudderDefl_l"; "RudderDefl_r";
   "StickForcePitch"; "StickForceRoll"; "StickForceYaw"; "AccBody"; "VelAcf";
   "Flaps"; "Gear"; "APMode"; "APServos"; "APYawServo"; "APPitchServo"; "APRollServo";
   "ElevTrimPct"; "AileronTrimPct"; "RudderTrimPct"; "CanopyPos"; "SpeedbrakePos";
   "cOvrd"; "jOvrd"; "pOvrd"].

(** Assigning the keys [ks] one after the other. *)
Inductive assigns : list string -> StdMap.t string -> StdMap.t string -> Prop :=
| assigns_nil m : assigns [] m m
| assigns_cons k v ks m m' :
    assigns ks (StdMap.insert k v m) m' -> assigns (k :: ks) m m'.


(** ** The [AXIS] loop and the canonical keys *)

(** The tokens the loop [while (std::getline(iss, token, ','))] visits. *)
Equations? getline_tokens (iss : IStream.t) (token : string) : list string
  by wf (IStream.fuel iss) lt :=
  getline_tokens iss token with inspect (IStream.getline iss token ",") := {
    | exist _ (token', iss') Hget with inspect (IStream.failbit iss') := {
      | exist _ true _ := []
      | exist _ false Hok := token' :: getline_tokens iss' token' } }.
Proof. all: getline_decreases. Qed.

(** The loop body over a list of tokens. *)
Fixpoint axis_pairs (tokens : list string) (m : StdMap.t float)
  : outcome (StdMap.t float) :=
  match tokens with
  | [] => Ok m
  | token :: tokens => m' <- axis_pair token m ;; axis_pairs tokens m'
  end.





(** ** Registering a key twice *)

(** The registry entries under key [k]. *)
Definition registrations_of (k : string) (registry : list DataRefSubscription)
  : list DataRefSubscription :=
  filter (fun sub => (key sub =? k)%string) registry.

(** What one registry entry does to the snapshot value of key [k]: an entry
    with that key and a supported type assigns the value read through it,
    any other entry leaves the value as it is. *)
Definition latest (sim : Sim) (k : string) (value : option string)
           (sub : DataRefSubscription) : option string :=
  if ((key sub =? k)%string && supported (type sub))%bool
  then Some (subscription_value sim sub)
  else value.

(** A simulator in which [sim/x] resolves and reads [3.0]. *)
Definition three_at_x : Sim := {|
  resolves := fun p => (p =? "sim/x")%string;
  XPLMGetDatai := fun _ => 0;
  XPLMGetDataf := fun ref => if (ref =? "sim/x")%string then flit false 3 0 else f0;
  XPLMGetDatad := fun _ => f0;
  datavf := fun _ => [];
  aircraftDescr := Some (String Ascii.zero "");
  aircraftModel := "";
  XPLMGetElapsedTime := f0
|}.

Definition foo_float : DataRefSubscription :=
  {| dataRef := "sim/x"; key := "Foo"; type := "float"; precision := 2;
     conversionFactor := flit false 2 0 |}.

Definition foo_text : DataRefSubscription :=
  {| dataRef := "sim/x"; key := "Foo"; type := "text"; precision := 5;
     conversionFactor := f1 |}.

Definition foo_int : DataRefSubscription :=
  {| dataRef := "sim/x"; key := "Foo"; type := "int"; precision := 5;
     conversionFactor := f1 |}.

(** ** Commands, runs and formatted text *)

(** The writes an [OVERRIDE] command makes for [keyword]. *)
Definition override_writes (keyword : string) (overrideValue : bool) : list SimWrite :=
  if (keyword =? "joystick")%string then
    [XPLMSetDatai gRollOvd (int_of_bool overrideValue);
     XPLMSetDatai gPitchOvd (int_of_bool overrideValue)]
  else if (keyword =? "pedals")%string then
    [XPLMSetDatai gYawOvd (int_of_bool overrideValue)]
  else if (keyword =? "collective")%string then
    [XPLMSetDatai gCollectiveOvd (int_of_bool overrideValue)]
  else [].

(** The character with code 0. *)
Definition NUL : ascii := zero.

(** A write of 0 or 1 to one of the four override datarefs. *)
Definition override_write (w : SimWrite) : Prop :=
  exists ref b, In ref [gRollOvd; gPitchOvd; gYawOvd; gCollectiveOvd] /\
                w = XPLMSetDatai ref (int_of_bool b).

(** What handling a datagram can do to the state. *)
Record received (sim : Sim) (st st' : State) : Prop := {
  received_telemetry : telemetryData st' = telemetryData st;
  received_sent : sent st' = sent st;
  received_writes : exists ws, simWrites st' = (simWrites st ++ ws)%list /\
                               Forall override_write ws;
  received_registry :
    exists added, subscribedDataRefs st' = (subscribedDataRefs st ++ added)%list /\
                  (List.length added <= 1)%nat /\
                  Forall (fun sub => resolves sim (dataRef sub) = true) added
}.

(** Number of datagram receptions and of frame ticks in a run. *)
Definition datagrams (evs : list event) : nat :=
  List.length (filter (fun ev => match ev with Datagram _ _ => true | _ => false end) evs).

Definition ticks (evs : list event) : nat :=
  List.length (filter (fun ev => match ev with FrameTick _ => true | _ => false end) evs).

(** The aircraft fields of the state. *)
Definition same_aircraft (a b : State) : Prop :=
  gAircraftName a = gAircraftName b /\
  gPrevAircraftName a = gPrevAircraftName b /\
  gActiveNumGear a = gActiveNumGear b /\
  gActiveNumEngines a = gActiveNumEngines b.

(** Every character of [s] is one of [set]. *)
Fixpoint all_in (set : string) (s : string) : bool :=
  match s with
  | EmptyString => true
  | String c r => StdString.mem c set && all_in set r
  end.

(** The characters a formatted finite [float] is made of. *)
Definition float_chars : string := "-.0123456789".

(** [x] is a number: neither an infinity nor a NaN. *)
Definition finite (x : float) : bool :=
  match x with
  | S754_zero _ | S754_finite _ _ _ => true
  | S754_infinity _ | S754_nan => false
  end.

(** The untrimmed text of an array: its elements, converted and formatted,
    with [~] between them. *)
Definition joined (conversionFactor : float) (precision : Z) (values : list float)
  : string :=
  String.concat "~" (map (fun x => Float.fixed precision (fmul x conversionFactor)) values).

(** Cutting a text after its last character that is not in [set]. *)
Definition cut_after_last_not_of (set s : string) : string :=
  match StdString.find_last_not_of set s with
  | Some pos => StdString.substr_to (pos + 1) s
  | None => s
  end.

(** [f] holds of the [n] integers from [a] on. *)
Definition all_from (f : Z -> bool) (a : Z) (n : positive) : bool :=
  fst (Pos.iter (fun '(ok, v) => (ok && f v, v + 1)) (true, a) n).

(** Entries in strictly ascending key order. *)
Definition key_lt {V : Type} (a b : string * V) : Prop :=
  String.compare (fst a) (fst b) = Lt.

Definition ascending {V : Type} (m : StdMap.t V) : Prop := Sorted.Sorted key_lt m.


(** A simulator at rest that reports the internal version [v]. *)
Definition reporting_version (v : Z) : Sim := {|
  resolves := fun _ => false;
  XPLMGetDatai := fun ref => if (ref =? gXplaneVers)%string then v else 0;
  XPLMGetDataf := fun _ => f0;
  XPLMGetDatad := fun _ => f0;
  datavf := fun _ => [];
  aircraftDescr := Some (String Ascii.zero "");
  aircraftModel := "";
  XPLMGetElapsedTime := f0
|}.

(** The number of non-zero coordinates of the gear leg at index [i]. *)
Definition coordinates_at (sim : Sim) (i : nat) : Z :=
  count_nonzero_at i (XPLMGetDatavf sim gGearXNode 10)
  + count_nonzero_at i (XPLMGetDatavf sim gGearYNode 10)
  + count_nonzero_at i (XPLMGetDatavf sim gGearZNode 10).

(** The date and time of day of a time stamp, up to the decimal point. *)
Definition seconds_text (systemTime : SYSTEMTIME) : string :=
  Digits.to_string (wMonth systemTime) ++ ":" ++
  Digits.to_string (wDay systemTime) ++ ":" ++
  Digits.to_string (wHour systemTime) ++ ":" ++
  Digits.to_string (wMinute systemTime) ++ ":" ++
  Digits.to_string (wSecond systemTime).

(** * Properties *)

(** ** Maps *)

Module StdMapFacts.
Import StdMap.

Section Facts.
Context {V : Type}.
Implicit Types (m : t V) (k : string) (v : V).

Lemma compare_Gt_neqb k k' : String.compare k k' = Gt -> String.eqb k k' = false.
Proof.
  intros H. apply String.eqb_neq. intros ->.
  pose proof (String.compare_antisym k' k') as A.
  rewrite H in A. discriminate A.
Qed.

Lemma find_insert k v m : find k (insert k v m) = Some v.
Proof.
  induction m as [|[k' v'] m IH]; simpl.
  - now rewrite String.eqb_refl.
  - destruct (String.compare k k') eqn:C; simpl.
    + now rewrite String.eqb_refl.
    + now rewrite String.eqb_refl.
    + now rewrite (compare_Gt_neqb _ _ C).
Qed.

Lemma find_insert_ne k k' v m : k' <> k -> find k' (insert k v m) = find k' m.
Proof.
  intros N. apply String.eqb_neq in N.
  induction m as [|[k0 v0] m IH]; simpl.
  - now rewrite N.
  - destruct (String.compare k k0) eqn:C; simpl.
    + apply String.compare_eq_iff in C. subst k0. now rewrite N.
    + now rewrite N.
    + now rewrite IH.
Qed.


Lemma mem_insert_mono k k' v m : mem k' m = true -> mem k' (insert k v m) = true.
Proof.
  unfold mem. destruct (String.eqb_spec k' k) as [->|N].
  - now rewrite find_insert.
  - now rewrite find_insert_ne.
Qed.

(** Reading a key that is present leaves the map as it is. *)
Lemma index_present dflt k v m : find k m = Some v -> index dflt k m = (v, m).
Proof. unfold index. now intros ->. Qed.


End Facts.
End StdMapFacts.

(** ** Streams *)

Lemma scan_length (delim : ascii) (s : string) :
  forall tok r, IStream.scan delim s = (tok, Some r) ->
                (String.length r < String.length s)%nat.
Proof. revert delim s. scan_shorter. Qed.

(** A [getline] never adds to what is left to read. *)
Lemma getline_fuel_le (iss : IStream.t) (str : string) (delim : ascii) :
  (IStream.fuel (snd (IStream.getline iss str delim)) <= IStream.fuel iss)%nat.
Proof. revert iss str delim. getline_fuel. Qed.

(** A [getline] that succeeds leaves strictly less to read. *)
Lemma getline_fuel_lt (iss : IStream.t) (str : string) (delim : ascii) :
  IStream.failbit (snd (IStream.getline iss str delim)) = false ->
  (IStream.fuel (snd (IStream.getline iss str delim)) < IStream.fuel iss)%nat.
Proof. revert iss str delim. getline_fuel. Qed.

(** ** What each operation leaves alone *)

Lemma same_control_refl st : same_control st st.
Proof. repeat split. Qed.

Lemma same_control_trans a b c : same_control a b -> same_control b c -> same_control a c.
Proof. unfold same_control. intuition congruence. Qed.

Lemma collect_subscription_control sim st sub :
  same_control (collect_subscription sim st sub) st.
Proof.
  unfold collect_subscription.
  destruct (type sub =? "int")%string; [repeat split|].
  destruct (type sub =? "float")%string; [repeat split|].
  destruct (type sub =? "double")%string; repeat split.
Qed.

Lemma collect_registry_control sim subs : forall st,
  same_control (fold_left (collect_subscription sim) subs st) st.
Proof.
  induction subs as [|sub subs IH]; intros st; simpl.
  - apply same_control_refl.
  - eapply same_control_trans; [apply IH | apply collect_subscription_control].
Qed.

Lemma collect_aircraft_control sim st : same_control (collect_aircraft sim st) st.
Proof. unfold collect_aircraft. destruct (negb _); repeat split. Qed.

Lemma CollectTelemetryData_control sim st :
  same_control (CollectTelemetryData sim st) st.
Proof.
  unfold CollectTelemetryData.
  pose proof (collect_aircraft_control sim st) as H1.
  set (st1 := collect_aircraft sim st) in *. clearbody st1.
  eapply same_control_trans; [|exact H1].
  eapply same_control_trans; [|apply collect_registry_control].
  repeat split.
Qed.

(** ** Outbound encoding: one datagram per tick unless paused *)

Lemma append_assoc (a b c : string) : (a ++ b) ++ c = a ++ (b ++ c).
Proof. induction a as [|x a IH]; simpl; [reflexivity | now rewrite IH]. Qed.





#[local] Arguments StdMap.index : simpl never.

(** Case analysis along the three [if]s of [SendAxisPosition]. *)
Ltac axis_cases :=
  unfold SendAxisPosition;
  repeat (cbn;
          match goal with
          | |- context [if ?b then _ else _] => destruct b eqn:?
          | |- context [let (_, _) := ?p in _] => destruct p eqn:?
          end);
  cbn.

Lemma SendAxisPosition_frame (st : State) :
  subscribedDataRefs (SendAxisPosition st) = subscribedDataRefs st /\
  telemetryData (SendAxisPosition st) = telemetryData st /\
  overrideJoystick (SendAxisPosition st) = overrideJoystick st /\
  overridePedals (SendAxisPosition st) = overridePedals st /\
  overrideCollective (SendAxisPosition st) = overrideCollective st /\
  sent (SendAxisPosition st) = sent st.
Proof. axis_cases; repeat split; assumption. Qed.



(** ** A datagram without a colon *)

(** C9: the datagram ["GARBAGE"] is processed to a normal return (the
    receive loop goes on) that changes neither the axis map, nor the override
    flags, nor the registry; nothing is written to the simulator or sent. *)
Theorem garbage_datagram_changes_nothing (sim : Sim) (st : State) :
  exists st',
    ReceiveData sim "GARBAGE" st = Ok st' /\
    axisDataMap st' = axisDataMap st /\
    overrideJoystick st' = overrideJoystick st /\
    overridePedals st' = overridePedals st /\
    overrideCollective st' = overrideCollective st /\
    subscribedDataRefs st' = subscribedDataRefs st /\
    telemetryData st' = telemetryData st /\
    simWrites st' = simWrites st /\
    sent st' = sent st /\
    debugLog st' = (debugLog st ++ ["Unknown Packet: "])%list.
Proof.
  exists (DebugLog "Unknown Packet: " st).
  split; [reflexivity | repeat split].
Qed.

(** ** Axis write-through *)


(** Reading one key does not change what a later read returns. *)
Lemma axis_value_index (m : StdMap.t float) (k k' : string) :
  axis_value (snd (StdMap.index f0 k m)) k' = axis_value m k'.
Proof.
  unfold axis_value, StdMap.index.
  destruct (StdMap.find k m) eqn:F; cbn [snd]; [reflexivity|].
  destruct (String.eqb_spec k' k) as [->|N].
  - now rewrite StdMapFacts.find_insert, F.
  - rewrite StdMapFacts.find_insert_ne by exact N.
    now destruct (StdMap.find k' m).
Qed.

(** Projections out of updated states, without unfolding the state itself. *)
Ltac st_cbn :=
  cbn [subscribedDataRefs telemetryData axisDataMap overrideJoystick overridePedals
       overrideCollective gAircraftName gPrevAircraftName gActiveNumGear
       gActiveNumEngines simPaused debugLog simWrites sent
       write DebugLog sendto telemetry with_subscribedDataRefs with_telemetryData
       with_axisDataMap with_overrides with_aircraft with_simPaused with_traces
       fst snd].

Lemma write_axis_step guard k ref st : axis_step guard k ref st (write_axis guard k ref st).
Proof.
  unfold write_axis, axis_value. destruct guard.
  - destruct (StdMap.index f0 k (axisDataMap st)) as [v m] eqn:E.
    split; st_cbn; unfold axis_value; rewrite ?E; reflexivity.
  - split; try reflexivity. st_cbn. now rewrite app_nil_r.
Qed.

Lemma axis_step_value guard k ref st st' k' :
  axis_step guard k ref st st' ->
  axis_value (axisDataMap st') k' = axis_value (axisDataMap st) k'.
Proof.
  intros [M _ _ _ _]. rewrite M. destruct guard; [apply axis_value_index | reflexivity].
Qed.



(** [SendAxisPosition] is four guarded reads and writes in a row. *)
Lemma SendAxisPosition_steps (st : State) :
  let s1 := write_axis (overrideJoystick st) "jx" gRollRatio st in
  let s2 := write_axis (overrideJoystick st) "jy" gPitchRatio s1 in
  let s3 := write_axis (overridePedals s2) "px" gYawRatio s2 in
  SendAxisPosition st = write_axis (overrideCollective s3) "cy" gCollectiveRatio s3.
Proof.
  unfold SendAxisPosition, write_axis.
  destruct (overrideJoystick st).
  - destruct (StdMap.index f0 "jx" (axisDataMap st)) as [jx m1]. st_cbn.
    destruct (StdMap.index f0 "jy" m1) as [jy m2]. reflexivity.
  - reflexivity.
Qed.

(** The writes of a call of [SendAxisPosition], in any state. *)
Lemma SendAxisPosition_writes (st : State) :
  simWrites (SendAxisPosition st) = (simWrites st ++ write_through st)%list.
Proof.
  rewrite SendAxisPosition_steps. cbv zeta.
  pose proof (write_axis_step (overrideJoystick st) "jx" gRollRatio st) as S1.
  set (s1 := write_axis _ "jx" _ _) in *. clearbody s1.
  pose proof (write_axis_step (overrideJoystick st) "jy" gPitchRatio s1) as S2.
  set (s2 := write_axis _ "jy" _ _) in *. clearbody s2.
  pose proof (write_axis_step (overridePedals s2) "px" gYawRatio s2) as S3.
  set (s3 := write_axis _ "px" _ _) in *. clearbody s3.
  pose proof (write_axis_step (overrideCollective s3) "cy" gCollectiveRatio s3) as S4.
  set (s4 := write_axis _ "cy" _ _) in *. clearbody s4.
  rewrite (step_writes _ _ _ _ _ S4), (step_writes _ _ _ _ _ S3),
    (step_writes _ _ _ _ _ S2), (step_writes _ _ _ _ _ S1).
  rewrite (step_collective _ _ _ _ _ S3), (step_collective _ _ _ _ _ S2),
    (step_collective _ _ _ _ _ S1), (step_pedals _ _ _ _ _ S2),
    (step_pedals _ _ _ _ _ S1).
  rewrite (axis_step_value _ _ _ _ _ "cy" S3), (axis_step_value _ _ _ _ _ "cy" S2),
    (axis_step_value _ _ _ _ _ "cy" S1), (axis_step_value _ _ _ _ _ "px" S2),
    (axis_step_value _ _ _ _ _ "px" S1), (axis_step_value _ _ _ _ _ "jy" S1).
  unfold write_through.
  destruct (overrideJoystick st), (overridePedals st), (overrideCollective st);
    cbn [app]; rewrite <- ?app_assoc; reflexivity.
Qed.


Lemma FormatAndSendTelemetryData_frame (st : State) :
  subscribedDataRefs (FormatAndSendTelemetryData st) = subscribedDataRefs st /\
  telemetryData (FormatAndSendTelemetryData st) = telemetryData st /\
  axisDataMap (FormatAndSendTelemetryData st) = axisDataMap st /\
  overrideJoystick (FormatAndSendTelemetryData st) = overrideJoystick st /\
  overridePedals (FormatAndSendTelemetryData st) = overridePedals st /\
  overrideCollective (FormatAndSendTelemetryData st) = overrideCollective st /\
  simWrites (FormatAndSendTelemetryData st) = simWrites st.
Proof. repeat split. Qed.

(** After its first step, a frame tick touches neither the registry, nor the
    axis map, nor the override flags, and writes nothing to the simulator. *)
Lemma MyFlightLoopCallback_control (sim : Sim) (st : State) :
  subscribedDataRefs (MyFlightLoopCallback sim st)
  = subscribedDataRefs (SendAxisPosition st) /\
  axisDataMap (MyFlightLoopCallback sim st) = axisDataMap (SendAxisPosition st) /\
  overrideJoystick (MyFlightLoopCallback sim st) = overrideJoystick (SendAxisPosition st) /\
  overridePedals (MyFlightLoopCallback sim st) = overridePedals (SendAxisPosition st) /\
  overrideCollective (MyFlightLoopCallback sim st)
  = overrideCollective (SendAxisPosition st) /\
  simWrites (MyFlightLoopCallback sim st) = simWrites (SendAxisPosition st).
Proof.
  unfold MyFlightLoopCallback.
  destruct (CollectTelemetryData_control sim (SendAxisPosition st))
    as (E1 & E2 & E3 & E4 & E5 & E6 & _).
  set (c := CollectTelemetryData sim (SendAxisPosition st)) in *. clearbody c.
  destruct (negb (simPaused c)).
  - destruct (FormatAndSendTelemetryData_frame c) as (F1 & _ & F2 & F3 & F4 & F5 & F6).
    repeat split; etransitivity; eassumption.
  - repeat split; assumption.
Qed.

Lemma MyFlightLoopCallback_writes (sim : Sim) (st : State) :
  simWrites (MyFlightLoopCallback sim st) = (simWrites st ++ write_through st)%list.
Proof.
  destruct (MyFlightLoopCallback_control sim st) as (_ & _ & _ & _ & _ & EW).
  rewrite EW. apply SendAxisPosition_writes.
Qed.

(** ** Override, then axis command, then frame tick *)

(** C6: after [OVERRIDE:joystick=true] and then [AXIS:jx=0.5,jy=-0.2], from
    any state, the joystick override is on and the axis map holds [0.5f] at
    [jx] and [-0.2f] at [jy] (its other entries are as before); the next
    frame tick then writes [0.5f] to the roll ratio and [-0.2f] to the pitch
    ratio, each exactly once. *)
Theorem override_then_axis_then_tick (sim1 sim2 sim3 : Sim) (st : State) :
  exists st1 st2 ws,
    ReceiveData sim1 "OVERRIDE:joystick=true" st = Ok st1 /\
    ReceiveData sim2 "AXIS:jx=0.5,jy=-0.2" st1 = Ok st2 /\
    overrideJoystick st2 = true /\
    axisDataMap st2
    = StdMap.insert "jy" minus_fifth (StdMap.insert "jx" half (axisDataMap st)) /\
    StdMap.find "jx" (axisDataMap st2) = Some half /\
    StdMap.find "jy" (axisDataMap st2) = Some minus_fifth /\
    simWrites (MyFlightLoopCallback sim3 st2) = (simWrites st2 ++ ws)%list /\
    writes_to gRollRatio ws = [XPLMSetDataf gRollRatio half] /\
    writes_to gPitchRatio ws = [XPLMSetDataf gPitchRatio minus_fifth].
Proof.
  set (st1 :=
         with_overrides
           (write (XPLMSetDatai gPitchOvd 1)
              (write (XPLMSetDatai gRollOvd 1)
                 (DebugLog "Parsed overrideValue: 1"
                    (DebugLog "Stream Content: joystick=true"
                       (DebugLog "Received Keyword: joystick"
                          (DebugLog "Inside the Override block" st))))))
           true (overridePedals st) (overrideCollective st)).
  set (st2 :=
         with_axisDataMap st1
           (StdMap.insert "jy" minus_fifth (StdMap.insert "jx" half (axisDataMap st)))).
  assert (Hjx : StdMap.find "jx" (axisDataMap st2) = Some half).
  { subst st2. st_cbn.
    rewrite StdMapFacts.find_insert_ne by discriminate.
    apply StdMapFacts.find_insert. }
  assert (Hjy : StdMap.find "jy" (axisDataMap st2) = Some minus_fifth).
  { subst st2. st_cbn. apply StdMapFacts.find_insert. }
  exists st1, st2.
  eexists.
  split; [subst st1; vm_compute; reflexivity|].
  split; [subst st2 st1; vm_compute; reflexivity|].
  split; [reflexivity|].
  split; [reflexivity|].
  split; [exact Hjx|].
  split; [exact Hjy|].
  split; [apply MyFlightLoopCallback_writes|].
  unfold write_through, axis_value.
  change (overrideJoystick st2) with true. cbv iota.
  rewrite (StdMapFacts.index_present f0 "jx" half _ Hjx).
  rewrite (StdMapFacts.index_present f0 "jy" minus_fifth _ Hjy).
  destruct (overridePedals st2), (overrideCollective st2); split; reflexivity.
Qed.

(** The same from the initial state, with a simulator at rest: the whole
    axis map and the whole write trace. *)
Lemma override_then_axis_then_tick_initially :
  exists st,
    run [Datagram quiet "OVERRIDE:joystick=true";
         Datagram quiet "AXIS:jx=0.5,jy=-0.2";
         FrameTick quiet] initial_state = Ok st /\
    overrideJoystick st = true /\
    axisDataMap st = [("cy", f0); ("jx", half); ("jy", minus_fifth); ("px", f0)] /\
    simWrites st = [XPLMSetDatai gRollOvd 1; XPLMSetDatai gPitchOvd 1;
                    XPLMSetDataf gRollRatio half; XPLMSetDataf gPitchRatio minus_fifth].
Proof. eexists. repeat split; vm_compute; reflexivity. Qed.

(** ** Inbound decoding of malformed values *)

(** C1 fails on the code: a pair of an [AXIS] payload that has an [=] but no
    number after it makes [std::stof] throw, and so does a [SUBSCRIBE]
    payload whose [precision] or [conversion] is not a number
    ([std::stoi], [std::stof]).  Nothing catches the exception: it leaves
    [ReceiveData], and with it the receive thread. *)
Theorem malformed_value_throws (sim : Sim) (st : State) :
  ReceiveData sim "AXIS:jx=abc" st = Throws invalid_argument /\
  ReceiveData sim "AXIS:jx=0.5,jy=" st = Throws invalid_argument /\
  ReceiveData sim "AXIS:jx=1e99" st = Throws out_of_range /\
  ReceiveData sim "SUBSCRIBE:dataref=sim/x,type=float,tag=Foo,precision=two" st
  = Throws invalid_argument /\
  ReceiveData sim "SUBSCRIBE:dataref=sim/x,type=float,tag=Foo,conversion=fast" st
  = Throws invalid_argument.
Proof. repeat split; vm_compute; reflexivity. Qed.

(** A pair without [=] is skipped, and the pairs after it are applied. *)
Lemma pair_without_equals_skipped (sim : Sim) (st : State) :
  ReceiveData sim "AXIS:jx,jy=0.5" st
  = Ok (with_axisDataMap st (StdMap.insert "jy" half (axisDataMap st))).
Proof. vm_compute. reflexivity. Qed.

(** An [OVERRIDE] payload with nothing after the keyword leaves
    [overrideValue] without a value, and the value is then read. *)
Lemma override_without_value (sim : Sim) (st : State) :
  ReceiveData sim "OVERRIDE:joystick" st = Undefined uninitialized_read /\
  ReceiveData sim "OVERRIDE:joystick=" st = Undefined uninitialized_read.
Proof. split; vm_compute; reflexivity. Qed.

(** A datagram that fills the receive buffer makes the terminating zero land
    one past its end. *)
Lemma full_buffer_datagram (sim : Sim) (st : State) (datagram : string) :
  String.length datagram = buffer_size ->
  ReceiveData sim datagram st = Undefined out_of_bounds_write.
Proof. unfold ReceiveData. intros ->. reflexivity. Qed.

(** ** Array formatting *)

(** C2 on the code: with [fixed_size = 3] the values [0.0, 0.0, 5.0] give
    ["0.000~0.000~5.000"], as claimed; with no fixed size the values
    [5.0, 0.0, 0.0] give ["5"], not ["5.000"]: [find_last_not_of("~0.000")]
    takes its argument as a set of characters and so strips every trailing
    [~], [0] and [.], the fraction of the last non-zero element included. *)
Theorem FloatArrayToString_examples :
  FloatArrayToString (with_array [f0; f0; five]) gGear no_convert 3 3
  = "0.000~0.000~5.000" /\
  FloatArrayToString (with_array [five; f0; f0]) gGear no_convert (-1) 3 = "5".
Proof. split; vm_compute; reflexivity. Qed.

(** The same trimming changes the value of an element that ends in zeros,
    and trims nothing at all when every element is zero. *)
Lemma FloatArrayToString_trim_changes_value :
  FloatArrayToString (with_array [ten; f0; f0]) gGear no_convert (-1) 3 = "1" /\
  FloatArrayToString (with_array [f0; f0; f0]) gGear no_convert (-1) 3
  = "0.000~0.000~0.000".
Proof. split; vm_compute; reflexivity. Qed.

(** ** Gear count *)

(** C3 fails on the code: with five gear legs in the table the highest
    non-zero index is 4, and [GetNumGear] returns 3, the largest number of
    non-zero coordinates found at any single index. *)
Theorem GetNumGear_five_legs :
  GetNumGear (with_gear five_legs five_legs five_legs) = 3 /\
  highest_nonzero_index (with_gear five_legs five_legs five_legs) = Some 4%nat.
Proof. split; vm_compute; reflexivity. Qed.

Lemma count_nonzero_at_bound (i : nat) (array : list float) :
  0 <= count_nonzero_at i array <= 1.
Proof. unfold count_nonzero_at. destruct (Float.nonzero _); lia. Qed.

(** [GetNumGear] never returns more than 3, whatever the table holds. *)
Lemma GetNumGear_bound (sim : Sim) : 0 <= GetNumGear sim <= 3.
Proof.
  unfold GetNumGear.
  generalize (XPLMGetDatavf sim gGearXNode 10), (XPLMGetDatavf sim gGearYNode 10),
    (XPLMGetDatavf sim gGearZNode 10).
  intros X Y Z.
  assert (H : forall l acc, 0 <= acc <= 3 ->
      0 <= fold_left (fun maxNonZero i =>
                        Z.max maxNonZero
                              (count_nonzero_at i X + count_nonzero_at i Y
                               + count_nonzero_at i Z)) l acc <= 3).
  { induction l as [|i l IH]; intros acc Hacc; simpl; [exact Hacc|].
    apply IH.
    pose proof (count_nonzero_at_bound i X). pose proof (count_nonzero_at_bound i Y).
    pose proof (count_nonzero_at_bound i Z). lia. }
  apply H. lia.
Qed.

(** A gear leg on the centre line ([x = 0]) and nothing else in the table:
    one leg, counted as 2. *)
Lemma GetNumGear_single_centre_leg :
  GetNumGear (with_gear [f0] [f1] [f1]) = 2.
Proof. vm_compute. reflexivity. Qed.

(** ** Subscriptions with a mandatory field missing *)

(** C5 fails on the code: a [SUBSCRIBE] without [tag] (or without [type])
    whose dataref resolves adds a registry entry, with the empty string in
    place of the missing field. *)
Theorem subscribe_without_tag_registers (st : State) :
  let sim := resolving "sim/time/paused" in
  exists st1 st2,
    ReceiveData sim "SUBSCRIBE:dataref=sim/time/paused,type=int" st = Ok st1 /\
    subscribedDataRefs st1
    = (subscribedDataRefs st
       ++ [{| dataRef := "sim/time/paused"; key := ""; type := "int";
              precision := 3; conversionFactor := f1 |}])%list /\
    ReceiveData sim "SUBSCRIBE:dataref=sim/time/paused,tag=Paused" st = Ok st2 /\
    subscribedDataRefs st2
    = (subscribedDataRefs st
       ++ [{| dataRef := "sim/time/paused"; key := "Paused"; type := "";
              precision := 3; conversionFactor := f1 |}])%list.
Proof.
  cbv zeta.
  eexists (DebugLog _ (with_subscribedDataRefs st _)).
  eexists (DebugLog _ (with_subscribedDataRefs st _)).
  split; [vm_compute; reflexivity|].
  split; [reflexivity|].
  split; [vm_compute; reflexivity|].
  reflexivity.
Qed.

(** The entry registered without a tag shows in the next snapshot under the
    empty key. *)
Lemma subscribe_without_tag_snapshot :
  let sim := resolving "sim/time/paused" in
  exists st,
    run [Datagram sim "SUBSCRIBE:dataref=sim/time/paused,type=int"; FrameTick sim]
        initial_state = Ok st /\
    StdMap.find "" (telemetryData st) = Some "0".
Proof. cbv zeta. eexists. split; vm_compute; reflexivity. Qed.

(** ** Completeness of the snapshot *)

Lemma collect_subscription_supported sim st sub :
  supported (type sub) = true ->
  collect_subscription sim st sub = telemetry (key sub) (subscription_value sim sub) st.
Proof.
  unfold supported, collect_subscription, subscription_value.
  destruct (type sub =? "int")%string; [reflexivity|].
  destruct (type sub =? "float")%string; [reflexivity|].
  destruct (type sub =? "double")%string; [reflexivity|discriminate].
Qed.

Lemma collect_subscription_unsupported sim st sub :
  supported (type sub) = false ->
  collect_subscription sim st sub = DebugLog ("Unsupported dataref type: " ++ type sub) st.
Proof.
  unfold supported, collect_subscription.
  destruct (type sub =? "int")%string; [discriminate|].
  destruct (type sub =? "float")%string; [discriminate|].
  destruct (type sub =? "double")%string; [discriminate|reflexivity].
Qed.

(** The registry loop never removes a key of the snapshot. *)
Lemma collect_subscription_mono sim st sub k :
  StdMap.mem k (telemetryData st) = true ->
  StdMap.mem k (telemetryData (collect_subscription sim st sub)) = true.
Proof.
  intros H. destruct (supported (type sub)) eqn:S.
  - rewrite collect_subscription_supported by exact S.
    st_cbn. now apply StdMapFacts.mem_insert_mono.
  - rewrite collect_subscription_unsupported by exact S. exact H.
Qed.

Lemma collect_registry_mono sim subs k : forall st,
  StdMap.mem k (telemetryData st) = true ->
  StdMap.mem k (telemetryData (fold_left (collect_subscription sim) subs st)) = true.
Proof.
  induction subs as [|sub subs IH]; intros st H; simpl; [exact H|].
  apply IH. now apply collect_subscription_mono.
Qed.


Lemma assigns_mono ks m m' k :
  assigns ks m m' -> StdMap.mem k m = true -> StdMap.mem k m' = true.
Proof.
  induction 1 as [|k0 v ks m m' _ IH]; intros H; [exact H|].
  apply IH. now apply StdMapFacts.mem_insert_mono.
Qed.


Lemma assigns_other ks m m' k :
  assigns ks m m' -> ~ In k ks -> StdMap.find k m' = StdMap.find k m.
Proof.
  induction 1 as [|k0 v ks m m' _ IH]; intros N; [reflexivity|].
  rewrite IH by (intros H; apply N; now right).
  apply StdMapFacts.find_insert_ne. intros ->. apply N. now left.
Qed.

Lemma collect_builtin_assigns sim st :
  assigns builtin_keys (telemetryData st) (telemetryData (collect_builtin sim st)).
Proof.
  unfold collect_builtin, builtin_keys. st_cbn.
  repeat (eapply assigns_cons). apply assigns_nil.
Qed.

(** The snapshot after [CollectTelemetryData]: the registry loop over the
    registry as it was, then the built-in assignments. *)
Lemma CollectTelemetryData_snapshot (sim : Sim) (st : State) :
  exists st0,
    assigns builtin_keys
            (telemetryData (fold_left (collect_subscription sim) (subscribedDataRefs st) st0))
            (telemetryData (CollectTelemetryData sim st)).
Proof.
  exists (collect_aircraft sim st).
  unfold CollectTelemetryData.
  destruct (collect_aircraft_control sim st) as (E & _).
  rewrite <- E.
  apply collect_builtin_assigns.
Qed.

Lemma MyFlightLoopCallback_telemetryData (sim : Sim) (st : State) :
  telemetryData (MyFlightLoopCallback sim st)
  = telemetryData (CollectTelemetryData sim (SendAxisPosition st)).
Proof.
  unfold MyFlightLoopCallback.
  set (c := CollectTelemetryData sim (SendAxisPosition st)). clearbody c.
  destruct (negb (simPaused c)); reflexivity.
Qed.

Lemma MyFlightLoopCallback_registry (sim : Sim) (st : State) :
  subscribedDataRefs (MyFlightLoopCallback sim st) = subscribedDataRefs st.
Proof.
  destruct (MyFlightLoopCallback_control sim st) as (E & _). rewrite E.
  apply SendAxisPosition_frame.
Qed.




(** ** The [AXIS] loop, pair by pair *)

Lemma axis_loop_step (iss : IStream.t) (token : string) (m : StdMap.t float) :
  axis_loop iss token m
  = if IStream.failbit (snd (IStream.getline iss token ",")) then Ok m
    else m' <- axis_pair (fst (IStream.getline iss token ",")) m ;;
         axis_loop (snd (IStream.getline iss token ","))
                   (fst (IStream.getline iss token ",")) m'.
Proof.
  funelim (axis_loop iss token m).
  all: rewrite Hget; cbn [fst snd].
  - now rewrite e.
  - rewrite Hok. now match goal with E : axis_pair _ _ = _ |- _ => rewrite E end.
  - rewrite Hok. now match goal with E : axis_pair _ _ = _ |- _ => rewrite E end.
  - rewrite Hok. now match goal with E : axis_pair _ _ = _ |- _ => rewrite E end.
Qed.

Lemma getline_tokens_step (iss : IStream.t) (token : string) :
  getline_tokens iss token
  = if IStream.failbit (snd (IStream.getline iss token ",")) then []
    else fst (IStream.getline iss token ",")
         :: getline_tokens (snd (IStream.getline iss token ","))
                           (fst (IStream.getline iss token ",")).
Proof.
  funelim (getline_tokens iss token).
  all: rewrite Hget; cbn [fst snd].
  - now rewrite e.
  - now rewrite Hok.
Qed.

(** The [AXIS] loop applies the loop body to the tokens of the payload, in
    order, up to the first one that throws. *)
Lemma axis_loop_tokens (iss : IStream.t) (token : string) (m : StdMap.t float) :
  axis_loop iss token m = axis_pairs (getline_tokens iss token) m.
Proof.
  remember (IStream.fuel iss) as n eqn:Hn.
  revert iss token m Hn.
  induction n as [n IH] using lt_wf_ind. intros iss token m ->.
  rewrite axis_loop_step, getline_tokens_step.
  destruct (IStream.failbit (snd (IStream.getline iss token ","))) eqn:F;
    [reflexivity|].
  cbn [axis_pairs].
  destruct (axis_pair (fst (IStream.getline iss token ",")) m) as [m'| |];
    cbn [bind]; try reflexivity.
  eapply IH; [|reflexivity].
  now apply getline_fuel_lt.
Qed.








(** ** The axis map along a run *)










(** ** Registering a key twice *)

Lemma RegisterDataRef_resolved sim path k ty p c st :
  resolves sim path = true ->
  subscribedDataRefs (RegisterDataRef sim path k ty p c st)
  = (subscribedDataRefs st
     ++ [{| dataRef := path; key := k; type := ty; precision := p;
            conversionFactor := c |}])%list.
Proof. unfold RegisterDataRef, XPLMFindDataRef. now intros ->. Qed.

(** The registry loop, seen from one key: entry by entry. *)
Lemma collect_subscription_find sim st sub k :
  StdMap.find k (telemetryData (collect_subscription sim st sub))
  = latest sim k (StdMap.find k (telemetryData st)) sub.
Proof.
  unfold latest. destruct (supported (type sub)) eqn:S.
  - rewrite collect_subscription_supported by exact S. st_cbn.
    destruct (String.eqb_spec (key sub) k) as [<-|N]; cbn [andb].
    + apply StdMapFacts.find_insert.
    + apply StdMapFacts.find_insert_ne. congruence.
  - rewrite collect_subscription_unsupported by exact S.
    rewrite andb_false_r. reflexivity.
Qed.

Lemma collect_registry_find sim k subs : forall st,
  StdMap.find k (telemetryData (fold_left (collect_subscription sim) subs st))
  = fold_left (latest sim k) subs (StdMap.find k (telemetryData st)).
Proof.
  induction subs as [|sub subs IH]; intros st; cbn [fold_left]; [reflexivity|].
  now rewrite IH, collect_subscription_find.
Qed.

(** Only the entries under key [k] count for the value of [k]. *)
Lemma latest_registrations sim k subs : forall value,
  fold_left (latest sim k) subs value
  = fold_left (latest sim k) (registrations_of k subs) value.
Proof.
  induction subs as [|sub subs IH]; intros value; [reflexivity|].
  unfold registrations_of in *. cbn [filter fold_left].
  destruct (key sub =? k)%string eqn:E.
  - cbn [fold_left]. apply IH.
  - replace (latest sim k value sub) with value by (unfold latest; now rewrite E).
    apply IH.
Qed.

(** The value a frame tick leaves under a key that is not built in: the one
    of the last registration of that key that has a supported type. *)
Lemma tick_registered_value sim st k :
  ~ In k builtin_keys ->
  exists value,
    StdMap.find k (telemetryData (MyFlightLoopCallback sim st))
    = fold_left (latest sim k) (registrations_of k (subscribedDataRefs st)) value.
Proof.
  intros NB. rewrite MyFlightLoopCallback_telemetryData.
  destruct (CollectTelemetryData_snapshot sim (SendAxisPosition st)) as [st0 A].
  rewrite (assigns_other _ _ _ _ A NB).
  destruct (SendAxisPosition_frame st) as (-> & _).
  rewrite collect_registry_find, latest_registrations.
  eexists. reflexivity.
Qed.

(** C7, as the code has it: the registry is a sequence, and registering a key
    a second time appends a second entry and keeps the first.  In the
    snapshot of every frame tick that follows, however many datagrams and
    ticks come before it, as long as the key is not registered once more, the
    key (when it is not a built-in key, which would be assigned after the
    registry loop) holds the value read through the second registration if
    the type of that one is [int], [float] or [double]; if it is not, and the
    type of the first one is, the value read through the first. *)
Theorem reregistration_last_supported_wins
        (sim1 sim2 sim : Sim) (st : State) (path1 path2 k type1 type2 : string)
        (precision1 precision2 : Z) (conversion1 conversion2 : float)
        (evs : list event) (st' : State) :
  resolves sim1 path1 = true ->
  resolves sim2 path2 = true ->
  ~ In k builtin_keys ->
  let first := {| dataRef := path1; key := k; type := type1;
                  precision := precision1; conversionFactor := conversion1 |} in
  let second := {| dataRef := path2; key := k; type := type2;
                   precision := precision2; conversionFactor := conversion2 |} in
  let st2 := RegisterDataRef sim2 path2 k type2 precision2 conversion2
               (RegisterDataRef sim1 path1 k type1 precision1 conversion1 st) in
  subscribedDataRefs st2 = (subscribedDataRefs st ++ [first; second])%list /\
  (run evs st2 = Ok st' ->
   registrations_of k (subscribedDataRefs st')
   = registrations_of k (subscribedDataRefs st2) ->
   (supported type2 = true ->
    StdMap.find k (telemetryData (MyFlightLoopCallback sim st'))
    = Some (subscription_value sim second)) /\
   (supported type2 = false -> supported type1 = true ->
    StdMap.find k (telemetryData (MyFlightLoopCallback sim st'))
    = Some (subscription_value sim first))).
Proof.
  intros R1 R2 NB first second st2.
  assert (E : subscribedDataRefs st2 = (subscribedDataRefs st ++ [first; second])%list).
  { subst st2. rewrite RegisterDataRef_resolved by exact R2.
    rewrite RegisterDataRef_resolved by exact R1.
    now rewrite <- app_assoc. }
  split; [exact E|].
  clearbody st2. intros _ Hsame.
  destruct (tick_registered_value sim st' k NB) as [value V].
  rewrite V, Hsame, E. clear V Hsame E.
  unfold registrations_of. rewrite filter_app, fold_left_app.
  set (old := fold_left _ (filter _ (subscribedDataRefs st)) value). clearbody old.
  assert (K1 : (key first =? k)%string = true) by apply String.eqb_refl.
  assert (K2 : (key second =? k)%string = true) by apply String.eqb_refl.
  cbn [filter]. rewrite K1, K2. cbn [fold_left]. unfold latest.
  rewrite K1, K2. cbn [andb].
  change (type second) with type2. change (type first) with type1.
  split.
  - intros ->. reflexivity.
  - intros -> ->. reflexivity.
Qed.

(** C7 as stated fails: after registering [Foo] twice the registry holds
    both registrations under that key, and when the second has a type the
    snapshot builder does not know, the snapshot value of [Foo] is the one of
    the first registration. *)
Lemma reregistration_keeps_first :
  exists st,
    run [Datagram three_at_x
           "SUBSCRIBE:dataref=sim/x,type=float,tag=Foo,precision=2,conversion=2.0";
         Datagram three_at_x
           "SUBSCRIBE:dataref=sim/x,type=text,tag=Foo,precision=5,conversion=1.0";
         FrameTick three_at_x] initial_state = Ok st /\
    registrations_of "Foo" (subscribedDataRefs st) = [foo_float; foo_text] /\
    registrations_of "Foo" (subscribedDataRefs st) <> [foo_text] /\
    StdMap.find "Foo" (telemetryData st) = Some "6.00".
Proof.
  eexists. split; [vm_compute; reflexivity|].
  split; [vm_compute; reflexivity|].
  split; [vm_compute; discriminate|].
  vm_compute; reflexivity.
Qed.

Lemma reregistration_witness :
  resolves three_at_x "sim/x" = true /\
  ~ In "Foo" builtin_keys /\
  supported "int" = true /\
  let st2 := RegisterDataRef three_at_x "sim/x" "Foo" "int" 5 f1
               (RegisterDataRef three_at_x "sim/x" "Foo" "float" 2 (flit false 2 0)
                                initial_state) in
  subscribedDataRefs st2 = [foo_float; foo_int] /\
  exists st',
    run [FrameTick three_at_x;
         Datagram three_at_x "SUBSCRIBE:dataref=sim/x,type=text,tag=Bar";
         Datagram three_at_x "AXIS:jx=0.5";
         FrameTick three_at_x] st2 = Ok st' /\
    StdMap.find "Foo" (telemetryData (MyFlightLoopCallback three_at_x st')) = Some "0".
Proof.
  assert (R : resolves three_at_x "sim/x" = true) by reflexivity.
  assert (N : ~ In "Foo" builtin_keys).
  { unfold builtin_keys. simpl. intros H.
    repeat (destruct H as [H|H]; [discriminate H|]). exact H. }
  split; [exact R|]. split; [exact N|]. split; [reflexivity|].
  intros st2.
  match goal with
  | |- context [run ?evs st2] =>
      pose (trace := evs);
      destruct (run evs st2) as [st'|e|u] eqn:Hrun;
        [|vm_compute in Hrun; discriminate Hrun ..]
  end.
  assert (Hsame : registrations_of "Foo" (subscribedDataRefs st')
                  = registrations_of "Foo" (subscribedDataRefs st2)).
  { pose proof Hrun as C. vm_compute in C. injection C as <-.
    vm_compute. reflexivity. }
  destruct (reregistration_last_supported_wins
              three_at_x three_at_x three_at_x initial_state "sim/x" "sim/x" "Foo"
              "float" "int" 2 5 (flit false 2 0) f1 trace st' R R N) as (E & S).
  destruct (S Hrun Hsame) as (S2 & _).
  split; [exact E|].
  exists st'. split; [reflexivity | exact (S2 eq_refl)].
Defined.

(** ** Framing of datagrams *)

Lemma scan_delim (d : ascii) (a r : string) :
  StdString.find d a = None ->
  IStream.scan d (a ++ String d r) = (a, Some r).
Proof.
  induction a as [|c a IH]; cbn [StdString.find append IStream.scan].
  - intros _. now rewrite Ascii.eqb_refl.
  - destruct (Ascii.eqb c d); [discriminate|].
    destruct (StdString.find d a); [discriminate|]. intros _.
    now rewrite IH.
Qed.

Lemma scan_end (d : ascii) (a : string) :
  StdString.find d a = None -> IStream.scan d a = (a, None).
Proof.
  induction a as [|c a IH]; cbn [StdString.find IStream.scan]; [reflexivity|].
  destruct (Ascii.eqb c d); [discriminate|].
  destruct (StdString.find d a); [discriminate|]. intros _.
  now rewrite IH.
Qed.

Lemma getline_delim (d : ascii) (a r str : string) :
  StdString.find d a = None ->
  IStream.getline (IStream.make (a ++ String d r)) str d = (a, IStream.make r).
Proof.
  intros H. unfold IStream.getline. cbn. now rewrite scan_delim.
Qed.

Lemma c_str_clean (s : string) :
  StdString.find NUL s = None -> StdString.c_str s = s.
Proof.
  induction s as [|c s IH]; cbn [StdString.find StdString.c_str]; [reflexivity|].
  unfold NUL in *.
  destruct (Ascii.eqb c zero); [discriminate|].
  destruct (StdString.find zero s); [discriminate|]. intros _. now rewrite IH.
Qed.

Lemma c_str_cut (a b : string) :
  StdString.find NUL a = None -> StdString.c_str (a ++ String NUL b) = a.
Proof.
  induction a as [|c a IH]; cbn [StdString.find StdString.c_str append].
  - reflexivity.
  - unfold NUL in *. destruct (Ascii.eqb c zero); [discriminate|].
    destruct (StdString.find zero a); [discriminate|]. intros _. now rewrite IH.
Qed.

Lemma find_app_none (c : ascii) (a b : string) :
  StdString.find c (a ++ b) = None ->
  StdString.find c a = None /\ StdString.find c b = None.
Proof.
  induction a as [|x a IH]; cbn [StdString.find append]; [auto|].
  destruct (Ascii.eqb x c); [discriminate|].
  destruct (StdString.find c (a ++ b)) eqn:E; [discriminate|]. intros _.
  destruct (IH eq_refl) as [-> ->]. auto.
Qed.

Lemma length_append (a b : string) :
  String.length (a ++ b) = (String.length a + String.length b)%nat.
Proof. induction a as [|x a IH]; simpl; [reflexivity | now rewrite IH]. Qed.

(** X1: A datagram shorter than the receive buffer, without a zero byte, is
    split at its first colon: the text before it is the data type, the text
    after it (up to a line feed, if there is one; here there is none) is the
    payload, further colons included. *)
Theorem ReceiveData_splits_at_first_colon
        (sim : Sim) (st : State) (dataType payload : string) :
  StdString.find ":" dataType = None ->
  StdString.find NUL (dataType ++ ":" ++ payload) = None ->
  StdString.find "010" payload = None ->
  (String.length (dataType ++ ":" ++ payload) < buffer_size)%nat ->
  ReceiveData sim (dataType ++ ":" ++ payload) st
  = ProcessReceivedData sim dataType payload st.
Proof.
  intros Hc Hz Hn Hl. unfold ReceiveData.
  rewrite c_str_clean by exact Hz.
  change (":" ++ payload) with (String ":" payload) in *.
  assert (L0 : (String.length (dataType ++ String ":" payload) =? 0)%nat = false).
  { rewrite length_append. cbn [String.length]. apply Nat.eqb_neq. lia. }
  assert (L1 : (buffer_size <? String.length (dataType ++ String ":" payload))%nat = false).
  { apply Nat.ltb_ge. lia. }
  assert (L2 : (String.length (dataType ++ String ":" payload) =? buffer_size)%nat = false).
  { apply Nat.eqb_neq. lia. }
  rewrite L0, L1, L2. cbn [orb].
  rewrite getline_delim by exact Hc.
  unfold IStream.getline. cbn [IStream.good IStream.make IStream.eofbit IStream.failbit
                               IStream.rdbuf orb negb].
  rewrite scan_end by exact Hn.
  reflexivity.
Qed.

Lemma ReceiveData_splits_at_first_colon_witness :
  ReceiveData quiet "AXIS:jx=0.5:jy" initial_state
  = ProcessReceivedData quiet "AXIS" "jx=0.5:jy" initial_state.
Proof.
  apply (ReceiveData_splits_at_first_colon quiet initial_state "AXIS" "jx=0.5:jy");
    [reflexivity | reflexivity | reflexivity | vm_compute; lia].
Defined.

(** X2: The receive buffer is read as a C string.  A datagram shorter than
    the buffer that holds a zero byte is handled as the text before its
    first zero byte would be, and the bytes after it are not seen; when the
    zero byte comes first, the datagram is logged as an unknown packet with
    an empty payload (an empty datagram, instead, is not handled at all). *)
Theorem ReceiveData_stops_at_NUL (sim : Sim) (st : State) (text rest : string) :
  StdString.find NUL text = None ->
  (String.length (text ++ String NUL rest) < buffer_size)%nat ->
  ReceiveData sim (text ++ String NUL rest) st
  = match text with
    | EmptyString => Ok (DebugLog "Unknown Packet: " st)
    | _ => ReceiveData sim text st
    end.
Proof.
  intros Hz Hl. unfold ReceiveData.
  rewrite c_str_cut by exact Hz.
  rewrite length_append in *. cbn [String.length] in *.
  replace (String.length text + S (String.length rest) =? 0)%nat with false
    by (symmetry; apply Nat.eqb_neq; lia).
  replace (buffer_size <? String.length text + S (String.length rest))%nat with false
    by (symmetry; apply Nat.ltb_ge; lia).
  replace (String.length text + S (String.length rest) =? buffer_size)%nat with false
    by (symmetry; apply Nat.eqb_neq; lia).
  cbn [orb].
  destruct text as [|c text]; [reflexivity|].
  rewrite c_str_clean by exact Hz.
  cbn [String.length] in *.
  replace (S (String.length text) =? 0)%nat with false by reflexivity.
  replace (buffer_size <? S (String.length text))%nat with false
    by (symmetry; apply Nat.ltb_ge; lia).
  replace (S (String.length text) =? buffer_size)%nat with false
    by (symmetry; apply Nat.eqb_neq; lia).
  reflexivity.
Qed.

Lemma ReceiveData_stops_at_NUL_witness :
  ReceiveData quiet ("GARBAGE" ++ String NUL "AXIS:jx=1") initial_state
  = ReceiveData quiet "GARBAGE" initial_state /\
  ReceiveData quiet (String NUL "AXIS:jx=1") initial_state
  = Ok (DebugLog "Unknown Packet: " initial_state).
Proof.
  split.
  - apply (ReceiveData_stops_at_NUL quiet initial_state "GARBAGE" "AXIS:jx=1");
      [reflexivity | vm_compute; lia].
  - apply (ReceiveData_stops_at_NUL quiet initial_state "" "AXIS:jx=1");
      [reflexivity | vm_compute; lia].
Defined.

(** X3: A data type other than [AXIS], [OVERRIDE] and [SUBSCRIBE] (the
    comparison is exact, so [axis] is one) is logged as an unknown packet and
    nothing else is done, whatever the payload. *)
Theorem unknown_dataType_only_logs (sim : Sim) (st : State) (dataType payload : string) :
  dataType <> "AXIS" -> dataType <> "OVERRIDE" -> dataType <> "SUBSCRIBE" ->
  ProcessReceivedData sim dataType payload st
  = Ok (DebugLog ("Unknown Packet: " ++ payload) st).
Proof.
  intros A O S. unfold ProcessReceivedData.
  apply String.eqb_neq in A, O, S. now rewrite A, O, S.
Qed.

Lemma unknown_dataType_only_logs_witness :
  ProcessReceivedData quiet "axis" "jx=1" initial_state
  = Ok (DebugLog "Unknown Packet: jx=1" initial_state).
Proof.
  apply (unknown_dataType_only_logs quiet initial_state "axis" "jx=1"); discriminate.
Defined.

(** X4: [OVERRIDE:keyword=text] returns normally when [text] is not
    blank; the value is [true] exactly when [text], after leading white
    space, starts with [true], and [false] for any other text ([1], [TRUE],
    [on]).  [joystick] sets its flag and writes the roll and the pitch
    override switch, [pedals] and [collective] set theirs and write one
    switch each; any other keyword changes no flag and writes nothing. *)
Theorem override_command (sim : Sim) (st : State) (keyword text : string) :
  StdString.find "=" keyword = None ->
  Digits.skip_space text <> "" ->
  let overrideValue := prefix "true" (Digits.skip_space text) in
  exists st',
    ProcessReceivedData sim "OVERRIDE" (keyword ++ "=" ++ text) st = Ok st' /\
    overrideJoystick st'
    = (if (keyword =? "joystick")%string then overrideValue else overrideJoystick st) /\
    overridePedals st'
    = (if (keyword =? "pedals")%string then overrideValue else overridePedals st) /\
    overrideCollective st'
    = (if (keyword =? "collective")%string then overrideValue
       else overrideCollective st) /\
    simWrites st' = (simWrites st ++ override_writes keyword overrideValue)%list /\
    axisDataMap st' = axisDataMap st /\
    subscribedDataRefs st' = subscribedDataRefs st /\
    telemetryData st' = telemetryData st /\
    sent st' = sent st.
Proof.
  intros Hk Ht overrideValue.
  unfold ProcessReceivedData. cbn [String.eqb Ascii.eqb Bool.eqb].
  change ("=" ++ text) with (String "=" text).
  rewrite getline_delim by exact Hk.
  cbn [IStream.failbit IStream.make].
  unfold IStream.extract_boolalpha.
  cbn [IStream.good IStream.eofbit IStream.failbit IStream.rdbuf IStream.make orb negb].
  destruct (Digits.skip_space text) as [|c r] eqn:E; [congruence|].
  fold overrideValue. unfold override_writes.
  destruct (keyword =? "joystick")%string eqn:J.
  { apply String.eqb_eq in J. subst keyword. eexists. split; [reflexivity|].
    cbn [String.eqb Ascii.eqb Bool.eqb]. st_cbn. rewrite <- app_assoc. repeat split. }
  destruct (keyword =? "pedals")%string eqn:P.
  { apply String.eqb_eq in P. subst keyword. eexists. split; [reflexivity|].
    cbn [String.eqb Ascii.eqb Bool.eqb]. st_cbn. repeat split. }
  destruct (keyword =? "collective")%string eqn:C.
  { eexists. split; [reflexivity|]. st_cbn. repeat split. }
  eexists. split; [reflexivity|]. st_cbn. rewrite app_nil_r. repeat split.
Qed.

Lemma override_command_witness :
  exists st',
    ProcessReceivedData quiet "OVERRIDE" "pedals= true" initial_state = Ok st' /\
    overridePedals st' = true /\
    simWrites st' = [XPLMSetDatai gYawOvd 1].
Proof.
  assert (T : Digits.skip_space " true" <> "") by (vm_compute; discriminate).
  destruct (override_command quiet initial_state "pedals" " true" eq_refl T)
    as (st' & E & _ & P & _ & W & _).
  exists st'. split; [exact E|]. split; [exact P | exact W].
Defined.

Lemma getline_end (d : ascii) (a str : string) :
  StdString.find d a = None ->
  IStream.getline (IStream.make a) str d
  = (a, {| IStream.rdbuf := ""; IStream.eofbit := true;
           IStream.failbit := match a with EmptyString => true | _ => false end |}).
Proof.
  intros H. unfold IStream.getline. cbn. now rewrite scan_end.
Qed.

(** X5: An [OVERRIDE] command with nothing but white space after the [=],
    or with no [=] at all, reads [overrideValue] before anything was stored in
    it. *)
Theorem override_value_missing (sim : Sim) (st : State) (keyword text : string) :
  StdString.find "=" keyword = None ->
  Digits.skip_space text = "" ->
  ProcessReceivedData sim "OVERRIDE" (keyword ++ "=" ++ text) st
  = Undefined uninitialized_read /\
  (keyword <> "" ->
   ProcessReceivedData sim "OVERRIDE" keyword st = Undefined uninitialized_read).
Proof.
  intros Hk Ht. unfold ProcessReceivedData. cbn [String.eqb Ascii.eqb Bool.eqb].
  split.
  - change ("=" ++ text) with (String "=" text).
    rewrite getline_delim by exact Hk.
    cbn [IStream.failbit IStream.make].
    unfold IStream.extract_boolalpha.
    cbn [IStream.good IStream.eofbit IStream.failbit IStream.rdbuf IStream.make orb negb].
    now rewrite Ht.
  - intros Hne. rewrite getline_end by exact Hk.
    destruct keyword; [congruence|]. reflexivity.
Qed.

Lemma override_value_missing_witness :
  ProcessReceivedData quiet "OVERRIDE" "joystick= " initial_state
  = Undefined uninitialized_read.
Proof.
  exact (proj1 (override_value_missing quiet initial_state "joystick" " " eq_refl eq_refl)).
Defined.

Lemma scan_keeps_none (c d : ascii) (s : string) :
  StdString.find c s = None ->
  StdString.find c (fst (IStream.scan d s)) = None /\
  (forall r, snd (IStream.scan d s) = Some r -> StdString.find c r = None).
Proof.
  induction s as [|x s IH]; cbn [StdString.find IStream.scan].
  - intros _. split; [reflexivity | discriminate].
  - destruct (Ascii.eqb x c) eqn:X; [discriminate|].
    destruct (StdString.find c s) eqn:F; [discriminate|]. intros _.
    destruct (IH eq_refl) as [H1 H2].
    destruct (Ascii.eqb x d).
    + cbn [fst snd]. split; [reflexivity|]. now intros r [= <-].
    + destruct (IStream.scan d s) as [tok k]. cbn [fst snd] in *.
      split; [|exact H2].
      cbn [StdString.find]. now rewrite X, H1.
Qed.

Lemma getline_keeps_none (c d : ascii) (iss : IStream.t) (str : string) :
  StdString.find c (IStream.rdbuf iss) = None ->
  StdString.find c (IStream.rdbuf (snd (IStream.getline iss str d))) = None /\
  (IStream.failbit (snd (IStream.getline iss str d)) = false ->
   StdString.find c (fst (IStream.getline iss str d)) = None).
Proof.
  intros H. unfold IStream.getline.
  destruct (IStream.good iss).
  - destruct (scan_keeps_none c d _ H) as [H1 H2].
    destruct (IStream.scan d (IStream.rdbuf iss)) as [tok [r|]]; cbn [fst snd] in *.
    + split; [apply H2; reflexivity | intros _; exact H1].
    + split; [reflexivity | intros _; exact H1].
  - cbn [fst snd IStream.rdbuf IStream.failbit]. split; [exact H | discriminate].
Qed.

(** No token of a text without [=] has an [=]. *)
Lemma tokens_without_equals (iss : IStream.t) (token : string) :
  StdString.find "=" (IStream.rdbuf iss) = None ->
  Forall (fun t => StdString.find "=" t = None) (getline_tokens iss token).
Proof.
  remember (IStream.fuel iss) as n eqn:Hn.
  revert iss token Hn.
  induction n as [n IH] using lt_wf_ind. intros iss token -> H.
  rewrite getline_tokens_step.
  destruct (getline_keeps_none "=" "," iss token H) as [H1 H2].
  destruct (IStream.failbit (snd (IStream.getline iss token ","))) eqn:F;
    [constructor|].
  constructor; [now apply H2|].
  eapply IH; [|reflexivity|exact H1].
  now apply getline_fuel_lt.
Qed.

Lemma axis_pairs_without_equals (tokens : list string) (m : StdMap.t float) :
  Forall (fun t => StdString.find "=" t = None) tokens -> axis_pairs tokens m = Ok m.
Proof.
  induction 1 as [|t ts Ht _ IH]; cbn [axis_pairs]; [reflexivity|].
  unfold axis_pair. rewrite Ht. cbn [bind]. exact IH.
Qed.

(** X6: An [AXIS] payload without any [=] returns normally and changes
    nothing, however many commas it holds. *)
Theorem axis_without_equals_changes_nothing (sim : Sim) (st : State) (payload : string) :
  StdString.find "=" payload = None ->
  exists st',
    ProcessReceivedData sim "AXIS" payload st = Ok st' /\
    axisDataMap st' = axisDataMap st /\
    overrideJoystick st' = overrideJoystick st /\
    overridePedals st' = overridePedals st /\
    overrideCollective st' = overrideCollective st /\
    subscribedDataRefs st' = subscribedDataRefs st /\
    telemetryData st' = telemetryData st /\
    simWrites st' = simWrites st /\
    sent st' = sent st /\
    debugLog st' = debugLog st.
Proof.
  intros H. exists (with_axisDataMap st (axisDataMap st)).
  split; [|repeat split].
  unfold ProcessReceivedData. cbn [String.eqb Ascii.eqb Bool.eqb].
  rewrite axis_loop_tokens.
  rewrite axis_pairs_without_equals; [reflexivity|].
  now apply tokens_without_equals.
Qed.

Lemma axis_without_equals_changes_nothing_witness :
  exists st',
    ProcessReceivedData quiet "AXIS" "jx,jy 0.5,,px" initial_state = Ok st' /\
    axisDataMap st' = axisDataMap initial_state.
Proof.
  destruct (axis_without_equals_changes_nothing quiet initial_state "jx,jy 0.5,,px" eq_refl)
    as (st' & E & M & _).
  exists st'. split; [exact E | exact M].
Defined.

Lemma received_refl sim st : received sim st st.
Proof.
  split; try reflexivity.
  - exists []. split; [now rewrite app_nil_r | constructor].
  - exists []. split; [now rewrite app_nil_r |]. split; [simpl; lia | constructor].
Qed.

Lemma override_write_in ref b :
  In ref [gRollOvd; gPitchOvd; gYawOvd; gCollectiveOvd] ->
  override_write (XPLMSetDatai ref (int_of_bool b)).
Proof. intros H. exists ref, b. auto. Qed.

(** A step that neither writes nor registers. *)
Ltac received_quiet :=
  split; [reflexivity | reflexivity
         | exists []; split; [st_cbn; now rewrite app_nil_r | constructor]
         | exists []; split; [st_cbn; now rewrite app_nil_r
                             | split; [simpl; lia | constructor]]].

Lemma ProcessReceivedData_received sim dataType payload st st' :
  ProcessReceivedData sim dataType payload st = Ok st' -> received sim st st'.
Proof.
  unfold ProcessReceivedData.
  destruct (dataType =? "AXIS")%string.
  { destruct (axis_loop _ _ _) as [m| |]; cbn [bind]; try discriminate.
    intros [= <-]. received_quiet. }
  destruct (dataType =? "OVERRIDE")%string.
  { destruct (IStream.getline _ _ _) as [keyValuePair iss].
    destruct (IStream.failbit iss); [intros [= <-]; received_quiet|].
    destruct (IStream.extract_boolalpha iss) as [overrideValue|]; [|discriminate].
    destruct (keyValuePair =? "joystick")%string.
    { intros [= <-]. split; try reflexivity.
      - eexists. split; [st_cbn; rewrite <- app_assoc; reflexivity|].
        repeat constructor; apply override_write_in; simpl; auto.
      - exists []. split; [now rewrite app_nil_r|]. split; [simpl; lia | constructor]. }
    destruct (keyValuePair =? "pedals")%string.
    { intros [= <-]. split; try reflexivity.
      - eexists. split; [st_cbn; reflexivity|].
        repeat constructor; apply override_write_in; simpl; auto.
      - exists []. split; [now rewrite app_nil_r|]. split; [simpl; lia | constructor]. }
    destruct (keyValuePair =? "collective")%string.
    { intros [= <-]. split; try reflexivity.
      - eexists. split; [st_cbn; reflexivity|].
        repeat constructor; apply override_write_in; simpl; auto.
      - exists []. split; [now rewrite app_nil_r|]. split; [simpl; lia | constructor]. }
    intros [= <-]. received_quiet. }
  destruct (dataType =? "SUBSCRIBE")%string.
  { destruct (StdMap.index _ "dataref" _) as [datarefStr p1].
    destruct (StdMap.index _ "type" _) as [typeStr p2].
    destruct (StdMap.index _ "tag" _) as [tagStr p3].
    destruct (match StdMap.find "precision" p3 with Some _ => _ | None => _ end)
      as [precision| |]; cbn [bind]; try discriminate.
    destruct (match StdMap.find "conversion" p3 with Some _ => _ | None => _ end)
      as [conversionFactor| |]; cbn [bind]; try discriminate.
    unfold RegisterDataRef, XPLMFindDataRef.
    destruct (resolves sim datarefStr) eqn:R; intros [= <-];
      [|received_quiet].
    split; try reflexivity.
    - exists []. split; [now rewrite app_nil_r | constructor].
    - eexists. split; [st_cbn; reflexivity|]. split; [simpl; lia|].
      constructor; [exact R | constructor]. }
  intros [= <-]. received_quiet.
Qed.

Lemma ReceiveData_received (sim : Sim) (datagram : string) (st st' : State) :
  ReceiveData sim datagram st = Ok st' -> received sim st st'.
Proof.
  unfold ReceiveData.
  destruct (_ || _); [intros [= <-]; apply received_refl|].
  destruct (_ =? _)%nat; [discriminate|].
  destruct (IStream.getline _ _ ":") as [dataType iss].
  destruct (IStream.getline _ _ _) as [payload iss'].
  apply ProcessReceivedData_received.
Qed.

(** X10: Whatever the datagram, if handling it returns, the snapshot and
    the outbound trace are as before, the only writes to the simulator are of
    0 or 1 to the four override switches, and the registry has grown by at
    most one entry, for a dataref that resolves. *)
Theorem datagram_effects (sim : Sim) (datagram : string) (st st' : State) :
  ReceiveData sim datagram st = Ok st' ->
  telemetryData st' = telemetryData st /\
  sent st' = sent st /\
  (exists ws, simWrites st' = (simWrites st ++ ws)%list /\ Forall override_write ws) /\
  (exists added,
      subscribedDataRefs st' = (subscribedDataRefs st ++ added)%list /\
      (List.length added <= 1)%nat /\
      Forall (fun sub => resolves sim (dataRef sub) = true) added).
Proof. intros H. destruct (ReceiveData_received _ _ _ _ H) as [T S W R]. auto. Qed.

Lemma MyFlightLoopCallback_sent (sim : Sim) (st : State) :
  exists out, sent (MyFlightLoopCallback sim st) = (sent st ++ out)%list /\
              (List.length out <= 1)%nat.
Proof.
  unfold MyFlightLoopCallback.
  destruct (CollectTelemetryData_control sim (SendAxisPosition st))
    as (_ & _ & _ & _ & _ & _ & E).
  destruct (SendAxisPosition_frame st) as (_ & _ & _ & _ & _ & E').
  rewrite E' in E. clear E'.
  set (c := CollectTelemetryData sim (SendAxisPosition st)) in *. clearbody c.
  destruct (negb (simPaused c)).
  - eexists. unfold FormatAndSendTelemetryData. st_cbn. rewrite E.
    split; [reflexivity | simpl; lia].
  - exists []. rewrite app_nil_r. split; [exact E | simpl; lia].
Qed.

Lemma datagram_effects_witness :
  exists st',
    ReceiveData quiet "OVERRIDE:joystick=true" initial_state = Ok st' /\
    telemetryData st' = telemetryData initial_state /\
    sent st' = sent initial_state.
Proof.
  destruct (ReceiveData quiet "OVERRIDE:joystick=true" initial_state) as [st'|e|u] eqn:E;
    [|vm_compute in E; discriminate E ..].
  destruct (datagram_effects quiet _ initial_state st' E) as (T & S & _).
  exists st'. split; [reflexivity|]. split; [exact T | exact S].
Defined.

(** X11: Along a run the registry and the outbound trace only grow: the
    registry by at most one entry per datagram received, the outbound trace
    by at most one datagram per frame tick. *)
Theorem run_only_appends (evs : list event) : forall (st st' : State),
  run evs st = Ok st' ->
  exists added out,
    subscribedDataRefs st' = (subscribedDataRefs st ++ added)%list /\
    (List.length added <= datagrams evs)%nat /\
    sent st' = (sent st ++ out)%list /\
    (List.length out <= ticks evs)%nat.
Proof.
  induction evs as [|ev evs IH]; intros st st'; cbn [run].
  - intros [= <-]. exists [], []. rewrite !app_nil_r. repeat split; simpl; lia.
  - destruct (step st ev) as [st1| |] eqn:E; cbn [bind]; try discriminate.
    intros H. destruct (IH _ _ H) as (added & out & R & LR & S & LS).
    destruct ev as [sim bytes|sim]; cbn [step] in E.
    + destruct (ReceiveData_received _ _ _ _ E) as [_ S1 _ (a1 & R1 & L1 & _)].
      exists (a1 ++ added)%list, out.
      rewrite R, R1, S, S1, <- app_assoc.
      unfold datagrams, ticks in *. cbn [filter List.length].
      rewrite length_app. repeat split; lia.
    + injection E as <-.
      destruct (MyFlightLoopCallback_sent sim st) as (o1 & S1 & L1).
      exists added, (o1 ++ out)%list.
      rewrite R, S, S1, MyFlightLoopCallback_registry, <- app_assoc.
      unfold datagrams, ticks in *. cbn [filter List.length].
      rewrite length_app. repeat split; lia.
Qed.

Lemma run_only_appends_witness :
  exists st' added out,
    run [Datagram (resolving "sim/x") "SUBSCRIBE:dataref=sim/x,type=float,tag=Foo";
         Datagram (resolving "sim/x") "GARBAGE";
         FrameTick (resolving "sim/x")] initial_state = Ok st' /\
    subscribedDataRefs st' = (subscribedDataRefs initial_state ++ added)%list /\
    (List.length added <= 2)%nat /\
    sent st' = (sent initial_state ++ out)%list /\
    (List.length out <= 1)%nat.
Proof.
  destruct (run [Datagram (resolving "sim/x") "SUBSCRIBE:dataref=sim/x,type=float,tag=Foo";
                 Datagram (resolving "sim/x") "GARBAGE";
                 FrameTick (resolving "sim/x")] initial_state) as [st'|e|u] eqn:E;
    [|vm_compute in E; discriminate E ..].
  destruct (run_only_appends _ initial_state st' E) as (added & out & R & LR & S & LS).
  exists st', added, out. split; [reflexivity|]. repeat split; assumption.
Defined.

(** ** Released groups *)

(** X12: What a frame tick writes to the simulator, channel by channel:
    the value of the channel's axis for a group that is overridden, nothing
    for a group that is not; with no group overridden a tick writes nothing
    at all. *)
Theorem tick_writes_only_overridden_groups (sim : Sim) (st : State) :
  exists ws,
    simWrites (MyFlightLoopCallback sim st) = (simWrites st ++ ws)%list /\
    writes_to gRollRatio ws
    = (if overrideJoystick st
       then [XPLMSetDataf gRollRatio (axis_value (axisDataMap st) "jx")] else []) /\
    writes_to gPitchRatio ws
    = (if overrideJoystick st
       then [XPLMSetDataf gPitchRatio (axis_value (axisDataMap st) "jy")] else []) /\
    writes_to gYawRatio ws
    = (if overridePedals st
       then [XPLMSetDataf gYawRatio (axis_value (axisDataMap st) "px")] else []) /\
    writes_to gCollectiveRatio ws
    = (if overrideCollective st
       then [XPLMSetDataf gCollectiveRatio (axis_value (axisDataMap st) "cy")] else []) /\
    (overrideJoystick st = false -> overridePedals st = false ->
     overrideCollective st = false -> ws = []).
Proof.
  exists (write_through st).
  split; [apply MyFlightLoopCallback_writes|].
  unfold write_through.
  destruct (overrideJoystick st), (overridePedals st), (overrideCollective st);
    repeat split; try reflexivity; discriminate.
Qed.

(** ** Aircraft identity *)

Lemma same_aircraft_trans a b c : same_aircraft a b -> same_aircraft b c -> same_aircraft a c.
Proof. unfold same_aircraft. intuition congruence. Qed.

Lemma collect_subscription_aircraft sim st sub :
  same_aircraft (collect_subscription sim st sub) st.
Proof.
  unfold collect_subscription.
  destruct (type sub =? "int")%string; [repeat split|].
  destruct (type sub =? "float")%string; [repeat split|].
  destruct (type sub =? "double")%string; repeat split.
Qed.

Lemma collect_registry_aircraft sim subs : forall st,
  same_aircraft (fold_left (collect_subscription sim) subs st) st.
Proof.
  induction subs as [|sub subs IH]; intros st; simpl.
  - repeat split.
  - eapply same_aircraft_trans; [apply IH | apply collect_subscription_aircraft].
Qed.

Lemma SendAxisPosition_aircraft st : same_aircraft (SendAxisPosition st) st.
Proof. axis_cases; repeat split. Qed.

(** After the aircraft step of a tick, the remembered name is the current
    one; the per-aircraft values are those of the simulator when the name has
    changed and are left as they were when it has not. *)
Lemma collect_aircraft_cache (sim : Sim) (st : State) :
  let st' := collect_aircraft sim st in
  gPrevAircraftName st' = gAircraftName st' /\
  (gAircraftName st' = gPrevAircraftName st ->
   gActiveNumGear st' = gActiveNumGear st /\
   gActiveNumEngines st' = gActiveNumEngines st /\
   telemetryData st' = telemetryData st /\
   debugLog st' = debugLog st) /\
  (gAircraftName st' <> gPrevAircraftName st ->
   gActiveNumGear st' = GetNumGear sim /\
   gActiveNumEngines st' = XPLMGetDatai sim gNumEngines).
Proof.
  cbv zeta. unfold collect_aircraft.
  set (name := if (String.length _ =? 0)%nat then _ else _). clearbody name.
  st_cbn.
  destruct (String.eqb_spec name (gPrevAircraftName st)) as [E|N]; cbn [negb].
  - st_cbn. split; [now symmetry|]. split; [intros _; repeat split|].
    intros C. now elim C.
  - unfold GetACDetails. st_cbn. split; [reflexivity|]. split; [|intros _; split; reflexivity].
    intros C. now elim N.
Qed.

Lemma collect_builtin_aircraft sim st : same_aircraft (collect_builtin sim st) st.
Proof. repeat split. Qed.

Lemma MyFlightLoopCallback_aircraft (sim : Sim) (st : State) :
  same_aircraft (MyFlightLoopCallback sim st)
                (collect_aircraft sim (SendAxisPosition st)).
Proof.
  unfold MyFlightLoopCallback, CollectTelemetryData.
  set (a := collect_aircraft sim (SendAxisPosition st)). clearbody a.
  pose proof (collect_registry_aircraft sim (subscribedDataRefs a) a) as R.
  set (r := fold_left _ _ a) in *. clearbody r.
  pose proof (collect_builtin_aircraft sim r) as B.
  set (c := collect_builtin sim r) in *. clearbody c.
  eapply same_aircraft_trans; [|exact R].
  eapply same_aircraft_trans; [|exact B].
  destruct (negb (simPaused c)); repeat split.
Qed.

(** X13: The gear and engine counts are read again on the tick on which
    the aircraft name differs from the remembered one, and are kept on every
    other tick; after every tick the remembered name is the current one. *)
Theorem tick_aircraft_cache (sim : Sim) (st : State) :
  let st' := MyFlightLoopCallback sim st in
  gPrevAircraftName st' = gAircraftName st' /\
  (gAircraftName st' = gPrevAircraftName st ->
   gActiveNumGear st' = gActiveNumGear st /\
   gActiveNumEngines st' = gActiveNumEngines st) /\
  (gAircraftName st' <> gPrevAircraftName st ->
   gActiveNumGear st' = GetNumGear sim /\
   gActiveNumEngines st' = XPLMGetDatai sim gNumEngines).
Proof.
  cbv zeta.
  destruct (MyFlightLoopCallback_aircraft sim st) as (N & P & G & E).
  destruct (SendAxisPosition_aircraft st) as (_ & P0 & G0 & E0).
  destruct (collect_aircraft_cache sim (SendAxisPosition st)) as (C1 & C2 & C3).
  rewrite N, P, G, E. rewrite P0, G0, E0 in *.
  split; [exact C1|]. split.
  - intros H. destruct (C2 H) as (? & ? & _). auto.
  - exact C3.
Qed.

(** ** Built-in fields of the snapshot *)





(** ** Subscriptions *)

Lemma subscribe_loop_step (iss : IStream.t) (k v : string) (parameters : StdMap.t string) :
  subscribe_loop iss k v parameters
  = let iss1 := snd (IStream.getline iss k "=") in
    let k1 := fst (IStream.getline iss k "=") in
    if IStream.failbit iss1 then parameters
    else subscribe_loop (snd (IStream.getline iss1 v ","))
                        k1 (fst (IStream.getline iss1 v ","))
                        (StdMap.insert k1 (fst (IStream.getline iss1 v ",")) parameters).
Proof.
  funelim (subscribe_loop iss k v parameters).
  all: cbv zeta; rewrite Hget; cbn [fst snd].
  - now rewrite e.
  - now rewrite Hok.
Qed.

(** One [field=text,] of a [SUBSCRIBE] payload, more following. *)
Lemma subscribe_loop_field (field text rest k v : string) (parameters : StdMap.t string) :
  StdString.find "=" field = None ->
  StdString.find "," text = None ->
  subscribe_loop (IStream.make (field ++ String "=" (text ++ String "," rest)))
                 k v parameters
  = subscribe_loop (IStream.make rest) field text (StdMap.insert field text parameters).
Proof.
  intros Hf Ht. rewrite subscribe_loop_step. cbv zeta.
  rewrite getline_delim by exact Hf. cbn [fst snd IStream.failbit IStream.make].
  change {| IStream.rdbuf := text ++ String "," rest; IStream.eofbit := false;
            IStream.failbit := false |}
    with (IStream.make (text ++ String "," rest)).
  rewrite getline_delim by exact Ht. reflexivity.
Qed.

(** The last [field=text] of a [SUBSCRIBE] payload. *)
Lemma subscribe_loop_last (field text k v : string) (parameters : StdMap.t string) :
  StdString.find "=" field = None ->
  StdString.find "," text = None ->
  subscribe_loop (IStream.make (field ++ String "=" text)) k v parameters
  = StdMap.insert field text parameters.
Proof.
  intros Hf Ht. rewrite subscribe_loop_step. cbv zeta.
  rewrite getline_delim by exact Hf. cbn [fst snd IStream.failbit IStream.make].
  change {| IStream.rdbuf := text; IStream.eofbit := false; IStream.failbit := false |}
    with (IStream.make text).
  rewrite getline_end by exact Ht. cbn [fst snd].
  rewrite subscribe_loop_step. cbv zeta.
  unfold IStream.getline at 1 2.
  cbn [IStream.good IStream.eofbit IStream.failbit orb negb fst snd].
  destruct text; reflexivity.
Qed.

#[local] Arguments Conv.stoi : simpl never.
#[local] Arguments Conv.stof : simpl never.

(** X7: A [SUBSCRIBE] command with its three mandatory fields registers
    the dataref with precision 3 and conversion factor 1.0; with [precision]
    and [conversion] given as numbers, with those.  (No field text may hold a
    comma, the separator.) *)
Theorem subscribe_command
        (sim : Sim) (st : State) (path ty tag ptext ctext : string)
        (p : Z) (c : float) :
  StdString.find "," path = None ->
  StdString.find "," ty = None ->
  StdString.find "," tag = None ->
  StdString.find "," ptext = None ->
  StdString.find "," ctext = None ->
  Conv.stoi ptext = Ok p ->
  Conv.stof ctext = Ok c ->
  ProcessReceivedData sim "SUBSCRIBE"
    ("dataref=" ++ path ++ ",type=" ++ ty ++ ",tag=" ++ tag) st
  = Ok (RegisterDataRef sim path tag ty 3 f1 st) /\
  ProcessReceivedData sim "SUBSCRIBE"
    ("dataref=" ++ path ++ ",type=" ++ ty ++ ",tag=" ++ tag
     ++ ",precision=" ++ ptext ++ ",conversion=" ++ ctext) st
  = Ok (RegisterDataRef sim path tag ty p c st).
Proof.
  intros Hp Ht Hk Hpt Hct Hpv Hcv.
  unfold ProcessReceivedData. cbn [String.eqb Ascii.eqb Bool.eqb].
  split.
  - change ("dataref=" ++ path ++ ",type=" ++ ty ++ ",tag=" ++ tag)
      with ("dataref" ++ String "=" (path ++ String ","
             ("type" ++ String "=" (ty ++ String ","
               ("tag" ++ String "=" tag))))).
    rewrite subscribe_loop_field by (reflexivity || assumption).
    rewrite subscribe_loop_field by (reflexivity || assumption).
    rewrite subscribe_loop_last by (reflexivity || assumption).
    reflexivity.
  - change ("dataref=" ++ path ++ ",type=" ++ ty ++ ",tag=" ++ tag
            ++ ",precision=" ++ ptext ++ ",conversion=" ++ ctext)
      with ("dataref" ++ String "=" (path ++ String ","
             ("type" ++ String "=" (ty ++ String ","
               ("tag" ++ String "=" (tag ++ String ","
                 ("precision" ++ String "=" (ptext ++ String ","
                   ("conversion" ++ String "=" ctext))))))))).
    rewrite subscribe_loop_field by (reflexivity || assumption).
    rewrite subscribe_loop_field by (reflexivity || assumption).
    rewrite subscribe_loop_field by (reflexivity || assumption).
    rewrite subscribe_loop_field by (reflexivity || assumption).
    rewrite subscribe_loop_last by (reflexivity || assumption).
    unfold StdMap.index. cbn. rewrite Hpv. cbn. rewrite Hcv. reflexivity.
Qed.

Lemma subscribe_command_witness :
  ProcessReceivedData (resolving "sim/x") "SUBSCRIBE"
    "dataref=sim/x,type=float,tag=Foo,precision=2,conversion=0.5" initial_state
  = Ok (RegisterDataRef (resolving "sim/x") "sim/x" "Foo" "float" 2 half initial_state).
Proof.
  assert (P : Conv.stoi "2" = Ok 2) by (vm_compute; reflexivity).
  assert (C : Conv.stof "0.5" = Ok half) by (vm_compute; reflexivity).
  exact (proj2 (subscribe_command (resolving "sim/x") initial_state
                  "sim/x" "float" "Foo" "2" "0.5" 2 half
                  eq_refl eq_refl eq_refl eq_refl eq_refl P C)).
Defined.

(** A field name with no [=] after it, at the end of the payload. *)
Lemma subscribe_loop_dangling (field k v : string) (parameters : StdMap.t string) :
  StdString.find "=" field = None -> field <> "" ->
  subscribe_loop (IStream.make field) k v parameters = StdMap.insert field v parameters.
Proof.
  intros Hf Hne. rewrite subscribe_loop_step. cbv zeta.
  rewrite getline_end by exact Hf. cbn [fst snd IStream.failbit].
  destruct field as [|c field]; [congruence|].
  unfold IStream.getline at 1 2 3.
  cbn [IStream.good IStream.eofbit IStream.failbit orb negb fst snd].
  rewrite subscribe_loop_step. cbv zeta.
  unfold IStream.getline at 1.
  cbn [IStream.good IStream.eofbit IStream.failbit orb negb fst snd].
  reflexivity.
Qed.

(** X8: A [SUBSCRIBE] payload that ends in a field name without [=]
    gives that field the text of the field before it: with [tag] last and
    bare, the key of the registration is the type. *)
Theorem subscribe_dangling_field (sim : Sim) (st : State) (path ty : string) :
  StdString.find "," path = None ->
  StdString.find "," ty = None ->
  ProcessReceivedData sim "SUBSCRIBE" ("dataref=" ++ path ++ ",type=" ++ ty ++ ",tag") st
  = Ok (RegisterDataRef sim path ty ty 3 f1 st).
Proof.
  intros Hp Ht.
  unfold ProcessReceivedData. cbn [String.eqb Ascii.eqb Bool.eqb].
  change ("dataref=" ++ path ++ ",type=" ++ ty ++ ",tag")
    with ("dataref" ++ String "=" (path ++ String ","
           ("type" ++ String "=" (ty ++ String "," "tag")))).
  rewrite subscribe_loop_field by (reflexivity || assumption).
  rewrite subscribe_loop_field by (reflexivity || assumption).
  rewrite subscribe_loop_dangling by (reflexivity || discriminate).
  reflexivity.
Qed.

Lemma subscribe_dangling_field_witness :
  ProcessReceivedData (resolving "sim/x") "SUBSCRIBE" "dataref=sim/x,type=float,tag"
                      initial_state
  = Ok (RegisterDataRef (resolving "sim/x") "sim/x" "float" "float" 3 f1 initial_state).
Proof.
  exact (subscribe_dangling_field (resolving "sim/x") initial_state "sim/x" "float"
           eq_refl eq_refl).
Defined.

(** X9: Right after a dataref of a supported type is registered under a
    key that is not a built-in one, the snapshot of the next tick holds, under
    that key, the value read through the registration at that tick. *)
Theorem registered_value_in_snapshot
        (sim sim' : Sim) (st : State) (path k ty : string) (p : Z) (c : float) :
  resolves sim path = true ->
  supported ty = true ->
  ~ In k builtin_keys ->
  let sub := {| dataRef := path; key := k; type := ty; precision := p;
                conversionFactor := c |} in
  StdMap.find k (telemetryData
                   (MyFlightLoopCallback sim' (RegisterDataRef sim path k ty p c st)))
  = Some (subscription_value sim' sub).
Proof.
  intros R S NB sub.
  rewrite MyFlightLoopCallback_telemetryData.
  set (st1 := RegisterDataRef sim path k ty p c st).
  destruct (CollectTelemetryData_snapshot sim' (SendAxisPosition st1)) as [st0 A].
  rewrite (assigns_other _ _ _ _ A NB).
  assert (E : subscribedDataRefs (SendAxisPosition st1)
              = (subscribedDataRefs st ++ [sub])%list).
  { destruct (SendAxisPosition_frame st1) as (-> & _).
    subst st1. now apply RegisterDataRef_resolved. }
  rewrite E, fold_left_app. cbn [fold_left].
  rewrite (collect_subscription_supported sim' _ sub) by exact S.
  st_cbn. apply StdMapFacts.find_insert.
Qed.

Lemma registered_value_in_snapshot_witness :
  StdMap.find "Foo"
    (telemetryData
       (MyFlightLoopCallback three_at_x
          (RegisterDataRef three_at_x "sim/x" "Foo" "float" 2 f1 initial_state)))
  = Some "3.00".
Proof.
  assert (N : ~ In "Foo" builtin_keys).
  { unfold builtin_keys. simpl. intros H.
    repeat (destruct H as [H|H]; [discriminate H|]). exact H. }
  exact (registered_value_in_snapshot three_at_x three_at_x initial_state
           "sim/x" "Foo" "float" 2 f1 eq_refl eq_refl N).
Defined.

(** ** Characters of formatted numbers *)

Lemma all_in_app set a b :
  all_in set (a ++ b) = all_in set a && all_in set b.
Proof.
  induction a as [|c a IH]; cbn [all_in append]; [reflexivity|].
  now rewrite IH, andb_assoc.
Qed.

Lemma all_in_substring set s : forall n m,
  all_in set s = true -> all_in set (substring n m s) = true.
Proof.
  induction s as [|c s IH]; intros n m H.
  - now destruct n, m.
  - cbn [all_in] in H. apply andb_prop in H as [Hc Hs].
    destruct n as [|n]; cbn [substring].
    + destruct m as [|m]; [reflexivity|]. cbn [all_in]. now rewrite Hc, IH.
    + now apply IH.
Qed.

Lemma all_in_zeros n : all_in float_chars (Digits.zeros n) = true.
Proof. induction n as [|n IH]; [reflexivity|]. cbn [Digits.zeros all_in]. now rewrite IH. Qed.

Lemma all_in_uint u : all_in float_chars (NilEmpty.string_of_uint u) = true.
Proof.
  induction u; cbn [NilEmpty.string_of_uint all_in]; try reflexivity;
    rewrite IHu; reflexivity.
Qed.

Lemma all_in_of_N n : all_in float_chars (Digits.of_N n) = true.
Proof.
  unfold Digits.of_N, NilZero.string_of_uint.
  destruct (N.to_uint n); try reflexivity; apply all_in_uint.
Qed.

Lemma all_in_point p n : all_in float_chars (Float.point p n) = true.
Proof.
  unfold Float.point.
  set (ds := Digits.zeros _ ++ Digits.of_N _).
  assert (D : all_in float_chars ds = true).
  { subst ds. now rewrite all_in_app, all_in_zeros, all_in_of_N. }
  clearbody ds.
  destruct p; [exact D|].
  rewrite !all_in_app. rewrite !all_in_substring by exact D. reflexivity.
Qed.

Lemma all_in_fixed precision x :
  finite x = true -> all_in float_chars (Float.fixed precision x) = true.
Proof.
  unfold Float.fixed.
  destruct x as [s|s| |s m e]; cbn [finite]; try discriminate; intros _.
  - rewrite all_in_app, all_in_point. now destruct s.
  - rewrite all_in_app, all_in_point. now destruct s.
Qed.

Lemma all_in_find set s c :
  all_in set s = true -> StdString.mem c set = false -> StdString.find c s = None.
Proof.
  intros H N. induction s as [|x s IH]; cbn [StdString.find]; [reflexivity|].
  cbn [all_in] in H. apply andb_prop in H as [Hx Hs].
  destruct (Ascii.eqb_spec x c) as [->|_]; [congruence|].
  now rewrite IH.
Qed.

Lemma all_in_concat set sep l :
  all_in set sep = true -> Forall (fun s => all_in set s = true) l ->
  all_in set (String.concat sep l) = true.
Proof.
  intros Hs. induction 1 as [|x l Hx Hl IH]; [reflexivity|].
  cbn [String.concat]. destruct l as [|y l]; [exact Hx|].
  now rewrite !all_in_app, Hx, Hs, IH.
Qed.

(** X17: A formatted number holds no character of the wire format.  For a
    finite product of value and conversion factor, [FloatToString] gives
    digits with at most a sign and a point, so neither [=], [;] nor [~]; for
    a dataref whose elements all have finite products,
    [FloatArrayToString] gives such numbers and [~] between them, so
    neither [=] nor [;]. *)
Theorem formatted_numbers_hold_no_separator
        (sim : Sim) (dataRef : XPLMDataRef) (value conversionFactor : float)
        (precision fixed_size : Z) :
  finite (fmul value conversionFactor) = true ->
  Forall (fun x => finite (fmul x conversionFactor) = true) (datavf sim dataRef) ->
  all_in float_chars (FloatToString value precision conversionFactor) = true /\
  StdString.find "=" (FloatToString value precision conversionFactor) = None /\
  StdString.find ";" (FloatToString value precision conversionFactor) = None /\
  StdString.find "~" (FloatToString value precision conversionFactor) = None /\
  all_in ("~" ++ float_chars)
    (FloatArrayToString sim dataRef conversionFactor fixed_size precision) = true /\
  StdString.find "="
    (FloatArrayToString sim dataRef conversionFactor fixed_size precision) = None /\
  StdString.find ";"
    (FloatArrayToString sim dataRef conversionFactor fixed_size precision) = None.
Proof.
  intros Hv Hd.
  assert (F : all_in float_chars (FloatToString value precision conversionFactor) = true)
    by (apply all_in_fixed; exact Hv).
  assert (A : all_in ("~" ++ float_chars)
                (FloatArrayToString sim dataRef conversionFactor fixed_size precision)
              = true).
  { unfold FloatArrayToString, XPLMGetDatavf_size.
    match goal with
    | |- context [Z.to_nat (if ?c then fixed_size else ?d)] =>
        set (size := if c then fixed_size else d)
    end.
    assert (L : (Z.to_nat size <= List.length (datavf sim dataRef))%nat).
    { subst size.
      destruct (0 <? fixed_size); cbn [andb]; [|lia].
      destruct (fixed_size <=? _) eqn:G; [|lia].
      apply Z.leb_le in G. lia. }
    clearbody size.
    assert (D : Forall (fun x => finite (fmul x conversionFactor) = true)
                       (XPLMGetDatavf sim dataRef (Z.to_nat size))).
    { unfold XPLMGetDatavf. rewrite firstn_app.
      replace (Z.to_nat size - List.length (datavf sim dataRef))%nat with 0%nat by lia.
      cbn [firstn]. rewrite app_nil_r.
      apply Forall_forall. intros x Hx. rewrite Forall_forall in Hd.
      apply Hd. rewrite <- (firstn_skipn (Z.to_nat size) (datavf sim dataRef)).
      apply in_or_app. now left. }
    set (l := map _ _).
    assert (C : all_in ("~" ++ float_chars) (String.concat "~" l) = true).
    { apply all_in_concat; [reflexivity|]. subst l. apply Forall_forall.
      intros t Ht. apply in_map_iff in Ht as (x & <- & Hx).
      rewrite Forall_forall in D.
      generalize (all_in_fixed precision (fmul x conversionFactor) (D x Hx)).
      generalize (Float.fixed precision (fmul x conversionFactor)).
      intros t. induction t as [|ch t IH]; [reflexivity|].
      cbn [all_in]. intros H. apply andb_prop in H as [Hc Ht].
      rewrite IH by exact Ht. rewrite andb_true_r.
      cbn [append StdString.mem]. rewrite Hc. apply orb_true_r. }
    clearbody l.
    destruct (0 <? fixed_size); [exact C|].
    destruct (StdString.find_last_not_of _ _); [|exact C].
    now apply all_in_substring. }
  split; [exact F|].
  split; [eapply all_in_find; [exact F | reflexivity]|].
  split; [eapply all_in_find; [exact F | reflexivity]|].
  split; [eapply all_in_find; [exact F | reflexivity]|].
  split; [exact A|].
  split; eapply all_in_find; try exact A; reflexivity.
Qed.

Lemma formatted_numbers_hold_no_separator_witness :
  all_in float_chars (FloatToString minus_fifth 3 ten) = true /\
  StdString.find ";" (FloatArrayToString (with_array [five; f0; ten]) gGear half 0 3)
  = None.
Proof.
  assert (Hv : finite (fmul minus_fifth ten) = true) by (vm_compute; reflexivity).
  assert (Hd : Forall (fun x => finite (fmul x half) = true)
                      (datavf (with_array [five; f0; ten]) gGear))
    by (repeat constructor).
  split.
  - assert (Hd0 : Forall (fun x => finite (fmul x ten) = true) (datavf quiet gGear))
      by constructor.
    exact (proj1 (formatted_numbers_hold_no_separator quiet gGear minus_fifth ten 3 0
                    Hv Hd0)).
  - assert (Hv' : finite (fmul f0 half) = true) by (vm_compute; reflexivity).
    destruct (formatted_numbers_hold_no_separator
                (with_array [five; f0; ten]) gGear f0 half 3 0 Hv' Hd)
      as (_ & _ & _ & _ & _ & _ & S).
    exact S.
Defined.

(** ** Array formatting, in general *)

(** X18: With a positive [fixed_size] the output is the first
    [fixed_size] elements of the dataref, or all of them when it has fewer:
    nothing is trimmed and nothing is padded. *)
Theorem FloatArrayToString_fixed_size
        (sim : Sim) (dataRef : XPLMDataRef) (conversionFactor : float)
        (fixed_size precision : Z) :
  0 < fixed_size ->
  FloatArrayToString sim dataRef conversionFactor fixed_size precision
  = joined conversionFactor precision
           (firstn (Z.to_nat fixed_size) (datavf sim dataRef)).
Proof.
  intros H. unfold FloatArrayToString, joined, XPLMGetDatavf_size, XPLMGetDatavf.
  set (l := datavf sim dataRef).
  replace (0 <? fixed_size) with true by (symmetry; now apply Z.ltb_lt).
  cbn [andb]. f_equal. f_equal.
  destruct (fixed_size <=? Z.of_nat (List.length l)) eqn:E.
  - apply Z.leb_le in E.
    rewrite firstn_app.
    replace (Z.to_nat fixed_size - List.length l)%nat with 0%nat by lia.
    cbn [firstn]. apply app_nil_r.
  - apply Z.leb_gt in E. rewrite Nat2Z.id.
    rewrite firstn_app, firstn_all, Nat.sub_diag. cbn [firstn]. rewrite app_nil_r.
    symmetry. apply firstn_all2. lia.
Qed.

Lemma FloatArrayToString_fixed_size_witness :
  FloatArrayToString (with_array [five; f0; ten; f0]) gGear f1 3 3
  = joined f1 3 [five; f0; ten].
Proof.
  apply (FloatArrayToString_fixed_size (with_array [five; f0; ten; f0]) gGear f1 3 3).
  lia.
Defined.

Lemma find_last_not_of_none (set s : string) :
  StdString.find_last_not_of set s = None -> all_in set s = true.
Proof.
  induction s as [|a s IH]; cbn [StdString.find_last_not_of all_in]; [reflexivity|].
  destruct (StdString.find_last_not_of set s); [discriminate|].
  destruct (StdString.mem a set); [|discriminate]. intros _. now rewrite IH.
Qed.

Lemma find_last_not_of_some (set s : string) : forall k,
  StdString.find_last_not_of set s = Some k ->
  exists t c suffix,
    s = t ++ String c suffix /\ String.length t = k /\
    StdString.mem c set = false /\ all_in set suffix = true.
Proof.
  induction s as [|a s IH]; intros k; cbn [StdString.find_last_not_of];
    [discriminate|].
  destruct (StdString.find_last_not_of set s) as [j|] eqn:F.
  - intros [= <-]. destruct (IH j eq_refl) as (t & c & suffix & -> & L & Hc & Hs).
    exists (String a t), c, suffix. cbn [append String.length]. auto.
  - destruct (StdString.mem a set) eqn:M; [discriminate|]. intros [= <-].
    exists "", a, s. repeat split; auto using find_last_not_of_none.
Qed.

Lemma substring_through (t : string) (c : ascii) (suffix : string) :
  substring 0 (String.length t + 1) (t ++ String c suffix) = t ++ String c "".
Proof.
  induction t as [|x t IH]; cbn [String.length Nat.add append substring].
  - now destruct suffix.
  - now rewrite IH.
Qed.

(** The cut keeps everything up to the last character outside [set], and
    keeps the whole text when it has no such character. *)
Lemma cut_after_last_not_of_spec (set s : string) :
  (all_in set s = true /\ cut_after_last_not_of set s = s) \/
  (exists t c suffix,
      s = t ++ String c suffix /\ StdString.mem c set = false /\
      all_in set suffix = true /\ cut_after_last_not_of set s = t ++ String c "").
Proof.
  unfold cut_after_last_not_of, StdString.substr_to.
  destruct (StdString.find_last_not_of set s) as [k|] eqn:F.
  - right. destruct (find_last_not_of_some _ _ _ F) as (t & c & suffix & -> & <- & Hc & Hs).
    exists t, c, suffix. repeat split; auto. apply substring_through.
  - left. split; [now apply find_last_not_of_none | reflexivity].
Qed.

(** X19: Without a fixed size (zero or negative), the output is the
    untrimmed text cut after its last character other than [~], [0] and [.];
    a text made of these three characters only is returned whole. *)
Theorem FloatArrayToString_trimming
        (sim : Sim) (dataRef : XPLMDataRef) (conversionFactor : float)
        (fixed_size precision : Z) :
  fixed_size <= 0 ->
  let whole := joined conversionFactor precision (datavf sim dataRef) in
  let out := FloatArrayToString sim dataRef conversionFactor fixed_size precision in
  (all_in "~0." whole = true /\ out = whole) \/
  (exists t c suffix,
      whole = t ++ String c suffix /\ StdString.mem c "~0." = false /\
      all_in "~0." suffix = true /\ out = t ++ String c "").
Proof.
  intros H whole out.
  assert (E : out = cut_after_last_not_of "~0.000" whole).
  { subst out whole. unfold FloatArrayToString, joined, XPLMGetDatavf_size, XPLMGetDatavf.
    replace (0 <? fixed_size) with false by (symmetry; apply Z.ltb_ge; lia).
    cbn [andb]. rewrite Nat2Z.id.
    rewrite firstn_app, firstn_all, Nat.sub_diag. cbn [firstn]. rewrite app_nil_r.
    reflexivity. }
  rewrite E. clearbody whole. clear E out.
  assert (S : forall s, all_in "~0.000" s = all_in "~0." s).
  { induction s as [|x s IHs]; [reflexivity|]. cbn [all_in]. rewrite IHs. f_equal.
    cbn [StdString.mem]. destruct (Ascii.eqb "~" x), (Ascii.eqb "0" x), (Ascii.eqb "." x);
      reflexivity. }
  destruct (cut_after_last_not_of_spec "~0.000" whole)
    as [[A C]|(t & c & suffix & W & Hc & Hs & C)].
  - left. rewrite <- S. auto.
  - right. exists t, c, suffix. rewrite <- S. repeat split; auto.
    cbn [StdString.mem] in *.
    destruct (Ascii.eqb "~" c), (Ascii.eqb "0" c), (Ascii.eqb "." c);
      try discriminate; reflexivity.
Qed.

Lemma FloatArrayToString_trimming_witness :
  let whole := joined f1 3 (datavf (with_array [ten; f0; f0]) gGear) in
  let out := FloatArrayToString (with_array [ten; f0; f0]) gGear f1 (-1) 3 in
  (all_in "~0." whole = true /\ out = whole) \/
  (exists t c suffix,
      whole = t ++ String c suffix /\ StdString.mem c "~0." = false /\
      all_in "~0." suffix = true /\ out = t ++ String c "").
Proof.
  apply (FloatArrayToString_trimming (with_array [ten; f0; f0]) gGear f1 (-1) 3).
  lia.
Defined.

(** ** X-Plane version test *)

Lemma all_from_iter (f : Z -> bool) (n : positive) : forall b a,
  let r := Pos.iter (fun '(ok, v) => (ok && f v, v + 1)) (b, a) n in
  snd r = a + Zpos n /\
  (fst r = true -> b = true /\ forall v, a <= v < a + Zpos n -> f v = true).
Proof.
  induction n as [|n IH] using Pos.peano_ind; intros b a; cbv zeta.
  - cbn [Pos.iter fst snd]. split; [reflexivity|].
    intros H. apply andb_prop in H as [Hb Hf]. split; [exact Hb|].
    intros v Hv. replace v with a by lia. exact Hf.
  - rewrite Pos.iter_succ.
    specialize (IH b a). cbv zeta in IH.
    destruct (Pos.iter _ (b, a) n) as [ok v0]. cbn [fst snd] in *.
    destruct IH as [-> IH]. split; [lia|].
    intros H. apply andb_prop in H as [Hok Hf].
    destruct (IH Hok) as [Hb Hall]. split; [exact Hb|].
    intros v Hv. destruct (Z.eq_dec v (a + Zpos n)) as [->|N]; [exact Hf|].
    apply Hall. lia.
Qed.

Lemma all_from_spec (f : Z -> bool) (a : Z) (n : positive) :
  all_from f a n = true -> forall v, a <= v < a + Zpos n -> f v = true.
Proof.
  unfold all_from. intros H. now apply (all_from_iter f n true a).
Qed.

(** X21: For the six-digit version numbers X-Plane reports,
    [IsXPlane12OrNewer] is true exactly for the versions of X-Plane 12: it is
    false for every later major version. *)
Theorem IsXPlane12OrNewer_six_digits (sim : Sim) :
  100000 <= XPLMGetDatai sim gXplaneVers <= 999999 ->
  IsXPlane12OrNewer sim
  = (120000 <=? XPLMGetDatai sim gXplaneVers) && (XPLMGetDatai sim gXplaneVers <=? 129999).
Proof.
  unfold IsXPlane12OrNewer. generalize (XPLMGetDatai sim gXplaneVers). intros v Hv.
  cbv zeta.
  pose (f := fun v => Bool.eqb (substring 0 2 (Digits.to_string v) =? "12")%string
                               ((120000 <=? v) && (v <=? 129999))).
  assert (A : all_from f 100000 900000 = true) by (vm_compute; reflexivity).
  pose proof (all_from_spec f _ _ A v ltac:(lia)) as H.
  subst f. cbv beta in H. now apply Bool.eqb_prop in H.
Qed.

Lemma IsXPlane12OrNewer_six_digits_witness :
  IsXPlane12OrNewer (reporting_version 130012) = false.
Proof.
  assert (H : 100000 <= XPLMGetDatai (reporting_version 130012) gXplaneVers <= 999999)
    by (vm_compute; split; discriminate).
  exact (IsXPlane12OrNewer_six_digits (reporting_version 130012) H).
Defined.

(** ** Order of the snapshot *)

Lemma insert_ascending {V : Type} (k : string) (v : V) (m : StdMap.t V) :
  ascending m -> ascending (StdMap.insert k v m).
Proof.
  unfold ascending. induction m as [|[k' v'] m IH]; intros H; cbn [StdMap.insert].
  - repeat constructor.
  - inversion H as [|x l Hs Hh]; subst.
    destruct (String.compare k k') eqn:C.
    + apply String.compare_eq_iff in C. subst k'.
      constructor; [exact Hs|]. destruct Hh; constructor; assumption.
    + constructor; [exact H|]. constructor. exact C.
    + constructor; [now apply IH|].
      assert (C' : String.compare k' k = Lt).
      { rewrite String.compare_antisym, C. reflexivity. }
      destruct m as [|[k0 v0] m]; cbn [StdMap.insert].
      * constructor. exact C'.
      * inversion Hh as [|y l' Hy]; subst.
        destruct (String.compare k k0); constructor; assumption.
Qed.

Lemma key_lt_trans {V : Type} (a b c : string * V) : key_lt a b -> key_lt b c -> key_lt a c.
Proof.
  unfold key_lt. intros H1 H2.
  apply OrderedTypeEx.String_as_OT.cmp_lt in H1, H2.
  apply OrderedTypeEx.String_as_OT.cmp_lt.
  eapply OrderedTypeEx.String_as_OT.lt_trans; eassumption.
Qed.

Lemma ascending_NoDup {V : Type} (m : StdMap.t V) : ascending m -> NoDup (map fst m).
Proof.
  intros H. apply Sorted.Sorted_StronglySorted in H; [|exact key_lt_trans].
  induction H as [|a l Hl IH Ha]; cbn [map]; constructor; [|exact IH].
  intros HIn. apply in_map_iff in HIn as (b & E & Hb).
  rewrite Forall_forall in Ha. specialize (Ha b Hb). unfold key_lt in Ha.
  rewrite E in Ha.
  pose proof (String.compare_antisym (fst a) (fst a)) as A. rewrite Ha in A. discriminate A.
Qed.

Lemma assigns_ascending ks m m' : assigns ks m m' -> ascending m -> ascending m'.
Proof.
  induction 1 as [|k v ks m m' _ IH]; intros H; [exact H|].
  apply IH. now apply insert_ascending.
Qed.

Lemma collect_aircraft_ascending sim st :
  ascending (telemetryData st) -> ascending (telemetryData (collect_aircraft sim st)).
Proof.
  intros H. unfold collect_aircraft.
  set (name := if (String.length _ =? 0)%nat then _ else _). clearbody name.
  destruct (negb _); [|exact H].
  unfold GetACDetails. st_cbn. repeat apply insert_ascending. exact H.
Qed.

Lemma collect_registry_ascending sim subs : forall st,
  ascending (telemetryData st) ->
  ascending (telemetryData (fold_left (collect_subscription sim) subs st)).
Proof.
  induction subs as [|sub subs IH]; intros st H; cbn [fold_left]; [exact H|].
  apply IH. destruct (supported (type sub)) eqn:S.
  - rewrite collect_subscription_supported by exact S. st_cbn.
    now apply insert_ascending.
  - rewrite collect_subscription_unsupported by exact S. exact H.
Qed.

Lemma MyFlightLoopCallback_ascending sim st :
  ascending (telemetryData st) ->
  ascending (telemetryData (MyFlightLoopCallback sim st)).
Proof.
  intros H. rewrite MyFlightLoopCallback_telemetryData.
  unfold CollectTelemetryData.
  assert (H0 : ascending (telemetryData (SendAxisPosition st))).
  { destruct (SendAxisPosition_frame st) as (_ & -> & _). exact H. }
  pose proof (collect_aircraft_ascending sim _ H0) as H1.
  set (a := collect_aircraft sim (SendAxisPosition st)) in *. clearbody a.
  pose proof (collect_registry_ascending sim (subscribedDataRefs a) a H1) as H2.
  set (r := fold_left _ _ a) in *. clearbody r.
  eapply assigns_ascending; [apply collect_builtin_assigns | exact H2].
Qed.

(** X15: In every state the plugin can reach, the keys of the snapshot are
    in strictly ascending byte order, so that no key occurs twice: this is
    the order, and the number, of the fields of a datagram. *)
Theorem snapshot_keys_ascending (evs : list event) (st : State) :
  run evs initial_state = Ok st ->
  ascending (telemetryData st) /\ NoDup (map fst (telemetryData st)).
Proof.
  intros H.
  assert (A : ascending (telemetryData st)).
  { assert (G : forall evs s s', run evs s = Ok s' ->
                  ascending (telemetryData s) -> ascending (telemetryData s')).
    { clear. induction evs as [|ev evs IH]; intros s s'; cbn [run].
      - now intros [= <-].
      - destruct (step s ev) as [s1| |] eqn:E; cbn [bind]; try discriminate.
        intros R A. apply (IH _ _ R).
        destruct ev as [sim bytes|sim]; cbn [step] in E.
        + destruct (ReceiveData_received _ _ _ _ E) as [-> _ _ _]. exact A.
        + injection E as <-. now apply MyFlightLoopCallback_ascending. }
    apply (G _ _ _ H). constructor. }
  split; [exact A | now apply ascending_NoDup].
Qed.

Lemma snapshot_keys_ascending_witness :
  exists st,
    run [Datagram (resolving "sim/x") "SUBSCRIBE:dataref=sim/x,type=float,tag=Foo";
         FrameTick (resolving "sim/x")] initial_state = Ok st /\
    NoDup (map fst (telemetryData st)).
Proof.
  destruct (run [Datagram (resolving "sim/x") "SUBSCRIBE:dataref=sim/x,type=float,tag=Foo";
                 FrameTick (resolving "sim/x")] initial_state) as [st|e|u] eqn:E;
    [|vm_compute in E; discriminate E ..].
  exists st. split; [reflexivity|].
  exact (proj2 (snapshot_keys_ascending _ st E)).
Defined.

(** ** Gear count, in general *)

Lemma fold_max_spec (g : nat -> Z) (l : list nat) : forall acc,
  let r := fold_left (fun m i => Z.max m (g i)) l acc in
  acc <= r /\ (forall i, In i l -> g i <= r) /\
  (r = acc \/ exists i, In i l /\ r = g i).
Proof.
  induction l as [|x l IH]; intros acc; cbv zeta; cbn [fold_left].
  - split; [lia|]. split; [intros i []|]. now left.
  - specialize (IH (Z.max acc (g x))). cbv zeta in IH.
    destruct IH as (B & U & W).
    split; [lia|]. split.
    + intros i [<-|Hi]; [lia | now apply U].
    + destruct W as [E|(i & Hi & E)].
      * destruct (Z.max_spec acc (g x)) as [[_ M]|[_ M]].
        -- right. exists x. split; [now left | now rewrite E].
        -- left. now rewrite E.
      * right. exists i. split; [now right | exact E].
Qed.

(** X20: [GetNumGear] is the largest number of non-zero coordinates that one
    of the first ten gear legs has: at least the count of every leg, the
    count of some leg unless it is 0, and so never more than 3. *)
Theorem GetNumGear_max_count (sim : Sim) :
  (forall i, (i < 10)%nat -> coordinates_at sim i <= GetNumGear sim) /\
  (GetNumGear sim = 0 \/
   exists i, (i < 10)%nat /\ GetNumGear sim = coordinates_at sim i) /\
  GetNumGear sim <= 3.
Proof.
  assert (E : GetNumGear sim
              = fold_left (fun m i => Z.max m (coordinates_at sim i)) (seq 0 10) 0)
    by reflexivity.
  destruct (fold_max_spec (coordinates_at sim) (seq 0 10) 0) as (_ & U & W).
  cbv zeta in U, W. rewrite <- E in U, W.
  assert (B : forall i, coordinates_at sim i <= 3).
  { intros i. unfold coordinates_at, count_nonzero_at.
    repeat destruct (Float.nonzero _); lia. }
  split; [|split].
  - intros i Hi. apply U. apply in_seq. lia.
  - destruct W as [W|(i & Hi & W)]; [now left|].
    right. exists i. split; [apply in_seq in Hi; lia | exact W].
  - destruct W as [W|(i & _ & W)]; [lia|]. rewrite W. apply B.
Qed.

(** ** Log time stamps *)

(** X22: The milliseconds of a time stamp take exactly three decimal digits,
    whatever the file time: the stamp is the date and time of day, a point,
    these three digits, and [" - "]. *)
Theorem GetTimestamp_milliseconds (systemTime : SYSTEMTIME) (QuadPart : N) :
  exists ms,
    GetTimestamp systemTime QuadPart = seconds_text systemTime ++ "." ++ ms ++ " - " /\
    String.length ms = 3%nat /\
    all_in "0123456789" ms = true.
Proof.
  set (n := (QuadPart mod 10000000 / 10000)%N).
  exists (setw_setfill_0 3 n).
  split.
  { unfold GetTimestamp, seconds_text. fold n. cbv zeta.
    rewrite !append_assoc. reflexivity. }
  assert (B : (n < 1000)%N).
  { subst n. apply N.Div0.div_lt_upper_bound.
    change (10000 * 1000)%N with 10000000%N. now apply N.mod_lt. }
  pose (f := fun v => ((String.length (setw_setfill_0 3 (Z.to_N v)) =? 3)%nat
                       && all_in "0123456789" (setw_setfill_0 3 (Z.to_N v)))%bool).
  assert (A : all_from f 0 1000 = true) by (vm_compute; reflexivity).
  pose proof (all_from_spec f _ _ A (Z.of_N n) ltac:(lia)) as H.
  subst f. cbv beta in H. rewrite N2Z.id in H.
  apply andb_prop in H as [H1 H2]. apply Nat.eqb_eq in H1. auto.
Qed.

(** ** Keys of the snapshot along a run *)

Lemma collect_aircraft_mono sim st k :
  StdMap.mem k (telemetryData st) = true ->
  StdMap.mem k (telemetryData (collect_aircraft sim st)) = true.
Proof.
  intros H. unfold collect_aircraft.
  set (name := if (String.length _ =? 0)%nat then _ else _). clearbody name.
  destruct (negb _); [|exact H].
  unfold GetACDetails. st_cbn. repeat apply StdMapFacts.mem_insert_mono. exact H.
Qed.

Lemma MyFlightLoopCallback_mono sim st k :
  StdMap.mem k (telemetryData st) = true ->
  StdMap.mem k (telemetryData (MyFlightLoopCallback sim st)) = true.
Proof.
  intros H. rewrite MyFlightLoopCallback_telemetryData.
  unfold CollectTelemetryData.
  assert (H0 : StdMap.mem k (telemetryData (SendAxisPosition st)) = true).
  { destruct (SendAxisPosition_frame st) as (_ & -> & _). exact H. }
  pose proof (collect_aircraft_mono sim _ k H0) as H1.
  set (a := collect_aircraft sim (SendAxisPosition st)) in *. clearbody a.
  pose proof (collect_registry_mono sim (subscribedDataRefs a) k a H1) as H2.
  set (r := fold_left _ _ a) in *. clearbody r.
  eapply assigns_mono; [apply collect_builtin_assigns | exact H2].
Qed.

(** X16: The snapshot is never cleared: a key it holds stays in it along every
    run, whatever datagrams arrive and whichever aircraft is loaded. *)
Theorem snapshot_keys_persist (evs : list event) : forall (st st' : State) (k : string),
  run evs st = Ok st' ->
  StdMap.mem k (telemetryData st) = true ->
  StdMap.mem k (telemetryData st') = true.
Proof.
  induction evs as [|ev evs IH]; intros st st' k; cbn [run].
  - now intros [= <-].
  - destruct (step st ev) as [st1| |] eqn:E; cbn [bind]; try discriminate.
    intros R H. apply (IH _ _ _ R).
    destruct ev as [sim bytes|sim]; cbn [step] in E.
    + destruct (ReceiveData_received _ _ _ _ E) as [-> _ _ _]. exact H.
    + injection E as <-. now apply MyFlightLoopCallback_mono.
Qed.

Lemma snapshot_keys_persist_witness :
  exists st',
    run [Datagram quiet "GARBAGE"; FrameTick paused]
        (MyFlightLoopCallback quiet initial_state) = Ok st' /\
    StdMap.mem "src" (telemetryData st') = true.
Proof.
  destruct (run [Datagram quiet "GARBAGE"; FrameTick paused]
                (MyFlightLoopCallback quiet initial_state)) as [st'|e|u] eqn:E;
    [|vm_compute in E; discriminate E ..].
  exists st'. split; [reflexivity|].
  apply (snapshot_keys_persist _ _ st' "src" E). vm_compute. reflexivity.
Defined.
